(** * KalloView SDK: instruction codec, address seeds, record parsers, client

    A shallow embedding of [src/instructions.ts] and [src/client.ts].

    - A byte is a [Z] in [0, 256); the contents of a Node [Buffer] are a
      list of bytes.
    - A JavaScript string is its sequence of UTF-16 code units.
    - Code that can throw returns a [Result]; [async] methods return an
      [Outcome] recording the requests made, what was logged and how the
      promise settled.
    - The Solana library pieces the SDK calls ([PublicKey], the program
      address search) are modelled next to the code that uses them. *)

From Stdlib Require Import ZArith List Lia Bool String Ascii.
Import ListNotations.
Open Scope Z_scope.

Set Implicit Arguments.

(* ================================================================== *)
(** ** Exceptions *)
(* ================================================================== *)

(** The JavaScript exceptions the modelled code can meet. *)
Inductive JsError : Type :=
| RangeError        (* DataView / Buffer index or value out of range *)
| TypeError         (* e.g. a seed longer than the library accepts    *)
| PlainError        (* [new Error(...)] thrown by the Solana library  *)
| TransportError.   (* the RPC connection failed                      *)

Inductive Result (A : Type) : Type :=
| Ok (a : A)
| Throw (e : JsError).

Arguments Ok {A} a.
Arguments Throw {A} e.

Definition bind {A B : Type} (r : Result A) (k : A -> Result B) : Result B :=
  match r with
  | Ok a => k a
  | Throw e => Throw e
  end.

Notation "x <- r ;; k" := (bind r (fun x => k))
  (at level 61, r at next level, right associativity).

Definition isOk {A : Type} (r : Result A) : bool :=
  match r with Ok _ => true | Throw _ => false end.

(* ================================================================== *)
(** ** Bytes and strings *)
(* ================================================================== *)

Definition bytes := list Z.

Definition len (b : bytes) : Z := Z.of_nat (List.length b).

(** [ToUint8] on an integer-valued number: what a [Uint8Array] store keeps. *)
Definition ToUint8 (v : Z) : Z := v mod 256.

(** [Buffer.from(array)]: every element goes through [ToUint8]. *)
Definition Buffer_from_array (a : list Z) : bytes := map ToUint8 a.

(** [Buffer.alloc(n)]: [n] zero bytes. *)
Definition Buffer_alloc (n : Z) : bytes := repeat 0 (Z.to_nat n).

(** [Buffer.concat(list)]. *)
Definition Buffer_concat (l : list bytes) : bytes := List.concat l.

(** A JavaScript string: its UTF-16 code units. *)
Definition jsstring := list Z.

(** A string literal of the source (ASCII only). *)
Definition str (s : string) : jsstring :=
  map (fun c => Z.of_N (N_of_ascii c)) (list_ascii_of_string s).

Definition isHighSurrogate (c : Z) : bool := (0xD800 <=? c) && (c <=? 0xDBFF).
Definition isLowSurrogate (c : Z) : bool := (0xDC00 <=? c) && (c <=? 0xDFFF).

(** UTF-8 bytes of one code point. *)
Definition utf8_codepoint (cp : Z) : bytes :=
  if cp <? 0x80 then [cp]
  else if cp <? 0x800 then
    [Z.lor 0xC0 (Z.shiftr cp 6); Z.lor 0x80 (Z.land cp 0x3F)]
  else if cp <? 0x10000 then
    [Z.lor 0xE0 (Z.shiftr cp 12);
     Z.lor 0x80 (Z.land (Z.shiftr cp 6) 0x3F);
     Z.lor 0x80 (Z.land cp 0x3F)]
  else
    [Z.lor 0xF0 (Z.shiftr cp 18);
     Z.lor 0x80 (Z.land (Z.shiftr cp 12) 0x3F);
     Z.lor 0x80 (Z.land (Z.shiftr cp 6) 0x3F);
     Z.lor 0x80 (Z.land cp 0x3F)].

(** [Buffer.from(str, 'utf8')] (also the default of [Buffer.from(str)]):
    surrogate pairs are combined, a lone surrogate becomes U+FFFD. *)
Fixpoint utf8 (s : jsstring) : bytes :=
  match s with
  | [] => []
  | c :: rest =>
    if isHighSurrogate c then
      match rest with
      | d :: rest' =>
        if isLowSurrogate d
        then utf8_codepoint (0x10000 + (c - 0xD800) * 0x400 + (d - 0xDC00))
             ++ utf8 rest'
        else utf8_codepoint 0xFFFD ++ utf8 rest
      | [] => utf8_codepoint 0xFFFD
      end
    else if isLowSurrogate c then utf8_codepoint 0xFFFD ++ utf8 rest
    else utf8_codepoint c ++ utf8 rest
  end.

(** Replace [List.length w] bytes of [buf] from index [off] by [w]. *)
Definition store (buf : bytes) (off : Z) (w : bytes) : bytes :=
  firstn (Z.to_nat off) buf ++ w
  ++ skipn (Z.to_nat off + List.length w) buf.

(** The four bytes [value], [value >>> 8], ... as stored in a [Uint8Array]. *)
Definition le32 (value : Z) : bytes :=
  [ToUint8 value; ToUint8 (Z.shiftr value 8);
   ToUint8 (Z.shiftr value 16); ToUint8 (Z.shiftr value 24)].

(** [buf.writeUInt32LE(value, offset)]: the value is range-checked first,
    then the offset; both failures are a [RangeError]. *)
Definition writeUInt32LE (buf : bytes) (value offset : Z) : Result bytes :=
  if (value <? 0) || (4294967295 <? value) then Throw RangeError
  else if (offset <? 0) || (len buf <? offset + 4) then Throw RangeError
  else Ok (store buf offset (le32 value)).

(** Little-endian value of a byte list (what [readUInt32LE] and the
    little-endian [DataView] getters compute). *)
Fixpoint le_value (b : bytes) : Z :=
  match b with
  | [] => 0
  | x :: rest => x + 256 * le_value rest
  end.

(* ================================================================== *)
(** ** Instruction data encoding (instructions.ts) *)
(* ================================================================== *)

Module KalloViewInstructionType.
Definition Initialize : Z := 0.
Definition CreateProduct : Z := 1.
Definition UpdateProduct : Z := 2.
Definition DeleteProduct : Z := 3.
Definition AddReview : Z := 4.
Definition UpdateReview : Z := 5.
Definition DailyClaim : Z := 6.
End KalloViewInstructionType.

Definition encodeString (s : jsstring) : Result bytes :=
  let strBuffer := utf8 s in
  let lengthBuffer := Buffer_alloc 4 in
  lengthBuffer <- writeUInt32LE lengthBuffer (len strBuffer) 0 ;;
  Ok (Buffer_concat [lengthBuffer; strBuffer]).

Definition encodeCreateProduct (productId metadataUri : jsstring) : Result bytes :=
  let instruction := Buffer_from_array [KalloViewInstructionType.CreateProduct] in
  productIdBuffer <- encodeString productId ;;
  metadataUriBuffer <- encodeString metadataUri ;;
  Ok (Buffer_concat [instruction; productIdBuffer; metadataUriBuffer]).

Definition encodeUpdateProduct (metadataUri : jsstring) : Result bytes :=
  let instruction := Buffer_from_array [KalloViewInstructionType.UpdateProduct] in
  metadataUriBuffer <- encodeString metadataUri ;;
  Ok (Buffer_concat [instruction; metadataUriBuffer]).

Definition encodeAddReview (productId : jsstring) (score : Z) (comment : jsstring)
  : Result bytes :=
  let instruction := Buffer_from_array [KalloViewInstructionType.AddReview] in
  productIdBuffer <- encodeString productId ;;
  let scoreBuffer := Buffer_from_array [score] in
  commentBuffer <- encodeString comment ;;
  Ok (Buffer_concat [instruction; productIdBuffer; scoreBuffer; commentBuffer]).

Definition encodeUpdateReview (score : Z) (comment : jsstring) : Result bytes :=
  let instruction := Buffer_from_array [KalloViewInstructionType.UpdateReview] in
  let scoreBuffer := Buffer_from_array [score] in
  commentBuffer <- encodeString comment ;;
  Ok (Buffer_concat [instruction; scoreBuffer; commentBuffer]).

(* ================================================================== *)
(** ** The Solana library: public keys and well-known addresses *)
(* ================================================================== *)

(** A [PublicKey] wraps the big number [_bn] read from its bytes. *)
Record PublicKey : Type := { bn : Z }.

Fixpoint be_value_from (acc : Z) (b : bytes) : Z :=
  match b with
  | [] => acc
  | x :: rest => be_value_from (acc * 256 + x) rest
  end.

(** Big-endian value of a byte list ([new BN(buffer)]). *)
Definition be_value (b : bytes) : Z := be_value_from 0 b.

(** [new PublicKey(buffer)]: any buffer whose number fits 32 bytes is
    accepted, shorter ones included; a larger number is an [Error]. *)
Definition new_PublicKey (value : bytes) : Result PublicKey :=
  let n := be_value value in
  if 2 ^ 256 <=? n then Throw PlainError else Ok {| bn := n |}.

Fixpoint be_bytes (n : nat) (v : Z) : bytes :=
  match n with
  | O => []
  | S k => be_bytes k (v / 256) ++ [v mod 256]
  end.

(** [key.toBuffer()]: the number as 32 big-endian bytes, zero padded. *)
Definition toBuffer (key : PublicKey) : bytes := be_bytes 32 (bn key).

(** [SystemProgram.programId], base58 [11111111111111111111111111111111]. *)
Definition SystemProgram_programId : PublicKey := {| bn := 0 |}.

(** [SYSVAR_CLOCK_PUBKEY], base58
    [SysvarC1ock11111111111111111111111111111111]. *)
Definition SYSVAR_CLOCK_PUBKEY : PublicKey :=
  {| bn := 3010411245977774767103551433779408434046391008353408711474217313814305570816 |}.

(** What the SDK takes from its platform without defining it: the hash and
    the curve test behind program addresses, the marker hashed after the
    program identifier, and the UTF-8 decoder of [TextDecoder]. *)
Class Platform : Type := {
  sha256 : bytes -> bytes;
  isOnCurve : bytes -> bool;
  domainSeparationSuffix : bytes;
  TextDecoder_decode : bytes -> jsstring
}.

(* ================================================================== *)
(** ** Program addresses *)
(* ================================================================== *)

Section Addresses.
Context {platform : Platform}.

(** The bytes hashed for one bump: the seeds, the bump, the program
    identifier and the marker, in that order. *)
Definition addressPreimage (seeds : list bytes) (programId : PublicKey)
           (bump : nat) : bytes :=
  Buffer_concat (seeds ++ [Buffer_from_array [Z.of_nat bump]])
  ++ toBuffer programId ++ domainSeparationSuffix.

(** Modelled from the spec: [PublicKey.findProgramAddressSync] of
    @solana/web3.js, which src/ calls and does not contain.  Spec 4.1:
    iterate a 1-byte bump value from 255 down to 0, appending it to the
    seed list, hashing (seeds..., bump, program identifier,
    domain-separation suffix), and accepting the first result that is
    off-curve; fail if no bump in range succeeds. *)
Fixpoint searchBump (seeds : list bytes) (programId : PublicKey)
         (bump : nat) : Result (PublicKey * Z) :=
  let hash := sha256 (addressPreimage seeds programId bump) in
  if isOnCurve hash then
    match bump with
    | O => Throw PlainError
    | S lower => searchBump seeds programId lower
    end
  else Ok ({| bn := be_value hash |}, Z.of_nat bump).

Definition findProgramAddressSync (seeds : list bytes) (programId : PublicKey)
  : Result (PublicKey * Z) :=
  searchBump seeds programId 255.

(** The same search as a step relation: [derives seeds pid bump r] when
    the search standing at [bump] ends with [r]. *)
Inductive derives (seeds : list bytes) (programId : PublicKey)
  : nat -> Result (PublicKey * Z) -> Prop :=
| derives_accept bump :
    isOnCurve (sha256 (addressPreimage seeds programId bump)) = false ->
    derives seeds programId bump
      (Ok ({| bn := be_value (sha256 (addressPreimage seeds programId bump)) |},
           Z.of_nat bump))
| derives_lower bump r :
    isOnCurve (sha256 (addressPreimage seeds programId (S bump))) = true ->
    derives seeds programId bump r ->
    derives seeds programId (S bump) r
| derives_exhausted :
    isOnCurve (sha256 (addressPreimage seeds programId 0)) = true ->
    derives seeds programId 0 (Throw PlainError).

(* PDA seed constants *)
Definition CONFIG_SEED : jsstring := str "config".
Definition PRODUCT_SEED : jsstring := str "product".
Definition REVIEW_SEED : jsstring := str "review".
Definition USER_SEED : jsstring := str "user".
Definition DAILY_CLAIMS_SEED : jsstring := str "daily_claims".

(* PDA helper functions *)
Definition getConfigPDA (programId : PublicKey) : Result (PublicKey * Z) :=
  findProgramAddressSync [utf8 CONFIG_SEED] programId.

Definition getProductPDA (programId : PublicKey) (productId : jsstring)
  : Result (PublicKey * Z) :=
  findProgramAddressSync [utf8 PRODUCT_SEED; utf8 productId] programId.

Definition getReviewPDA (programId : PublicKey) (productId : jsstring)
           (reviewer : PublicKey) : Result (PublicKey * Z) :=
  findProgramAddressSync
    [utf8 REVIEW_SEED; utf8 productId; toBuffer reviewer] programId.

Definition getUserPDA (programId : PublicKey) (user : PublicKey)
  : Result (PublicKey * Z) :=
  findProgramAddressSync [utf8 USER_SEED; toBuffer user] programId.

Definition getDailyClaimsPDA (programId : PublicKey) (user : PublicKey)
           (date : jsstring) : Result (PublicKey * Z) :=
  findProgramAddressSync
    [utf8 DAILY_CLAIMS_SEED; toBuffer user; utf8 date] programId.

End Addresses.

(* ================================================================== *)
(** ** Instruction builders *)
(* ================================================================== *)

Record AccountMeta : Type := {
  pubkey : PublicKey;
  isSigner : bool;
  isWritable : bool
}.

Module TransactionInstruction.
Record t : Type := {
  keys : list AccountMeta;
  programId : PublicKey;
  data : bytes
}.
End TransactionInstruction.

Definition meta (pubkey : PublicKey) (isSigner isWritable : bool) : AccountMeta :=
  {| pubkey := pubkey; isSigner := isSigner; isWritable := isWritable |}.

Definition createInitializeInstruction
           (programId authority configAccount : PublicKey)
  : TransactionInstruction.t :=
  {| TransactionInstruction.keys :=
       [ meta authority true true;
         meta configAccount false true;
         meta SystemProgram_programId false false ];
     TransactionInstruction.programId := programId;
     TransactionInstruction.data :=
       Buffer_from_array [KalloViewInstructionType.Initialize] |}.

Definition createCreateProductInstruction
           (programId owner productAccount configAccount : PublicKey)
           (productId metadataUri : jsstring)
  : Result TransactionInstruction.t :=
  data <- encodeCreateProduct productId metadataUri ;;
  Ok {| TransactionInstruction.keys :=
          [ meta owner true true;
            meta productAccount false true;
            meta configAccount false true;
            meta SystemProgram_programId false false;
            meta SYSVAR_CLOCK_PUBKEY false false ];
        TransactionInstruction.programId := programId;
        TransactionInstruction.data := data |}.

Definition createUpdateProductInstruction
           (programId owner productAccount : PublicKey) (metadataUri : jsstring)
  : Result TransactionInstruction.t :=
  data <- encodeUpdateProduct metadataUri ;;
  Ok {| TransactionInstruction.keys :=
          [ meta owner true true;
            meta productAccount false true ];
        TransactionInstruction.programId := programId;
        TransactionInstruction.data := data |}.

Definition createDeleteProductInstruction
           (programId owner productAccount : PublicKey)
  : TransactionInstruction.t :=
  {| TransactionInstruction.keys :=
       [ meta owner true true;
         meta productAccount false true ];
     TransactionInstruction.programId := programId;
     TransactionInstruction.data :=
       Buffer_from_array [KalloViewInstructionType.DeleteProduct] |}.

Definition createAddReviewInstruction
           (programId reviewer productAccount reviewAccount userAccount
                      configAccount : PublicKey)
           (productId : jsstring) (score : Z) (comment : jsstring)
  : Result TransactionInstruction.t :=
  data <- encodeAddReview productId score comment ;;
  Ok {| TransactionInstruction.keys :=
          [ meta reviewer true true;
            meta productAccount false true;
            meta reviewAccount false true;
            meta userAccount false true;
            meta configAccount false true;
            meta SystemProgram_programId false false;
            meta SYSVAR_CLOCK_PUBKEY false false ];
        TransactionInstruction.programId := programId;
        TransactionInstruction.data := data |}.

Definition createUpdateReviewInstruction
           (programId reviewer reviewAccount : PublicKey)
           (score : Z) (comment : jsstring)
  : Result TransactionInstruction.t :=
  data <- encodeUpdateReview score comment ;;
  Ok {| TransactionInstruction.keys :=
          [ meta reviewer true true;
            meta reviewAccount false true;
            meta SYSVAR_CLOCK_PUBKEY false false ];
        TransactionInstruction.programId := programId;
        TransactionInstruction.data := data |}.

Definition createDailyClaimInstruction
           (programId user userAccount dailyClaimsAccount configAccount : PublicKey)
  : TransactionInstruction.t :=
  {| TransactionInstruction.keys :=
       [ meta user true true;
         meta userAccount false true;
         meta dailyClaimsAccount false true;
         meta configAccount false true;
         meta SystemProgram_programId false false;
         meta SYSVAR_CLOCK_PUBKEY false false ];
     TransactionInstruction.programId := programId;
     TransactionInstruction.data :=
       Buffer_from_array [KalloViewInstructionType.DailyClaim] |}.

(* ================================================================== *)
(** ** Date helper *)
(* ================================================================== *)

Definition msPerDay : Z := 86400000.

(** Year, month and day of the proleptic Gregorian calendar for a day
    number counted from 1970-01-01 (UTC). *)
Definition civilFromDays (day : Z) : Z * Z * Z :=
  let z := day + 719468 in
  let era := z / 146097 in
  let doe := z - era * 146097 in
  let yoe := (doe - doe / 1460 + doe / 36524 - doe / 146096) / 365 in
  let doy := doe - (365 * yoe + yoe / 4 - yoe / 100) in
  let mp := (5 * doy + 2) / 153 in
  let d := doy - (153 * mp + 2) / 5 + 1 in
  let m := if mp <? 10 then mp + 3 else mp - 9 in
  let y := yoe + era * 400 + (if m <=? 2 then 1 else 0) in
  (y, m, d).

(** The UTC year of a time value in milliseconds since the epoch. *)
Definition utcYear (t : Z) : Z := fst (fst (civilFromDays (t / msPerDay))).

(** The last [width] decimal digits of [n], as characters. *)
Fixpoint digits (width : nat) (n : Z) : jsstring :=
  match width with
  | O => []
  | S w => digits w (n / 10) ++ [48 + n mod 10]
  end.

(** The year of an ISO date string: four digits from 0 to 9999, a sign
    and six digits otherwise. *)
Definition isoYear (y : Z) : jsstring :=
  if (0 <=? y) && (y <=? 9999) then digits 4 y
  else (if y <? 0 then str "-" else str "+") ++ digits 6 (Z.abs y).

(** [date.toISOString()] for the time value [t]:
    [YYYY-MM-DDTHH:mm:ss.sssZ]. *)
Definition toISOString (t : Z) : jsstring :=
  let '(y, m, d) := civilFromDays (t / msPerDay) in
  let ms := t mod msPerDay in
  isoYear y ++ str "-" ++ digits 2 m ++ str "-" ++ digits 2 d ++ str "T"
  ++ digits 2 (ms / 3600000) ++ str ":" ++ digits 2 (ms / 60000 mod 60)
  ++ str ":" ++ digits 2 (ms / 1000 mod 60) ++ str "." ++ digits 3 (ms mod 1000)
  ++ str "Z".

(** [s.split(sep)] for a one-character separator. *)
Fixpoint split (sep : Z) (s : jsstring) : list jsstring :=
  match s with
  | [] => [[]]
  | c :: rest =>
    if c =? sep then [] :: split sep rest
    else match split sep rest with
         | w :: ws => (c :: w) :: ws
         | [] => [[c]]
         end
  end.

(** Utility function to get current date string (YYYY-MM-DD); [now] is
    the time value [new Date()] reads from the clock. *)
Definition getCurrentDateString (now : Z) : jsstring :=
  nth 0 (split 84 (toISOString now)) [].

(* ================================================================== *)
(** ** Buffers as views, DataView reads (client.ts) *)
(* ================================================================== *)

(** A Node [Buffer] is a window on an [ArrayBuffer]: [data.buffer] is the
    whole backing store, and the bytes of [data] are the [byteLength]
    bytes of it from [byteOffset]. *)
Record Buffer : Type := {
  buffer : bytes;
  byteOffset : Z;
  byteLength : Z
}.

(** The bytes the buffer itself holds. *)
Definition contents (data : Buffer) : bytes :=
  firstn (Z.to_nat (byteLength data)) (skipn (Z.to_nat (byteOffset data)) (buffer data)).

(** A buffer that owns its whole backing store. *)
Definition Buffer_of (b : bytes) : Buffer :=
  {| buffer := b; byteOffset := 0; byteLength := len b |}.

(** Index normalisation of [slice]: negative counts from the end, and the
    result is clamped to the buffer. *)
Definition clampIndex (i n : Z) : Z :=
  if i <? 0 then Z.max (n + i) 0 else Z.min i n.

(** [data.slice(start, end)]: a window on the same backing store, clamped
    to [data]; it never throws. *)
Definition slice (data : Buffer) (start stop : Z) : Buffer :=
  let s := clampIndex start (byteLength data) in
  let e := clampIndex stop (byteLength data) in
  {| buffer := buffer data;
     byteOffset := byteOffset data + s;
     byteLength := Z.max (e - s) 0 |}.

(** [new DataView(arrayBuffer)]: a view of the whole array buffer. *)
Definition DataView := bytes.
Definition new_DataView (arrayBuffer : bytes) : DataView := arrayBuffer.

(** The [n] bytes a getter reads at [byteOffset], or [RangeError] when
    they do not lie inside the view. *)
Definition viewBytes (view : DataView) (byteOffset n : Z) : Result bytes :=
  if (byteOffset <? 0) || (len view <? byteOffset + n) then Throw RangeError
  else Ok (firstn (Z.to_nat n) (skipn (Z.to_nat byteOffset) view)).

Definition getUint8 (view : DataView) (byteOffset : Z) : Result Z :=
  b <- viewBytes view byteOffset 1 ;; Ok (le_value b).

(** [view.getUint32(byteOffset, true)] *)
Definition getUint32 (view : DataView) (byteOffset : Z) : Result Z :=
  b <- viewBytes view byteOffset 4 ;; Ok (le_value b).

(** [view.getBigUint64(byteOffset, true)] *)
Definition getBigUint64 (view : DataView) (byteOffset : Z) : Result Z :=
  b <- viewBytes view byteOffset 8 ;; Ok (le_value b).

(** [view.getBigInt64(byteOffset, true)] *)
Definition getBigInt64 (view : DataView) (byteOffset : Z) : Result Z :=
  b <- viewBytes view byteOffset 8 ;;
  let u := le_value b in
  Ok (if 2 ^ 63 <=? u then u - 2 ^ 64 else u).

(** [Number(bigint)]: the nearest double, ties to even; exact up to 53
    significant bits. *)
Definition Number (v : Z) : Z :=
  let a := Z.abs v in
  let k := Z.log2 a + 1 - 53 in
  if k <=? 0 then v
  else
    let q := a / 2 ^ k in
    let r := a mod 2 ^ k in
    let half := 2 ^ (k - 1) in
    let q' := if (half <? r) || ((r =? half) && Z.odd q) then q + 1 else q in
    Z.sgn v * (q' * 2 ^ k).

Module Config.
Record t : Type := {
  isInitialized : bool;
  authority : PublicKey;
  totalProducts : Z;
  totalReviews : Z;
  totalUsers : Z;
  totalTransactions : Z;
  version : Z
}.
End Config.

Module Product.
Record t : Type := {
  productId : jsstring;
  owner : PublicKey;
  totalScores : Z;
  totalReviews : Z;
  metadataUri : jsstring;
  status : bool;
  createdAt : Z
}.
End Product.

Module Review.
Record t : Type := {
  productId : jsstring;
  reviewer : PublicKey;
  score : Z;
  comment : jsstring;
  createdAt : Z;
  updatedAt : Z
}.
End Review.

Module User.
Record t : Type := {
  userAddress : PublicKey;
  dailyPoints : Z;
  reviewPoints : Z;
  lastClaimTime : Z;
  totalReviews : Z
}.
End User.

Module DailyClaims.
Record t : Type := {
  user : PublicKey;
  date : jsstring;
  claimsCount : Z
}.
End DailyClaims.

(* ================================================================== *)
(** ** Record parsers (client.ts, helper methods) *)
(* ================================================================== *)

Section Parsers.
Context {platform : Platform}.

(** [new TextDecoder().decode(data.slice(start, stop))] *)
Definition decodeSlice (data : Buffer) (start stop : Z) : jsstring :=
  TextDecoder_decode (contents (slice data start stop)).

(** [new PublicKey(data.slice(start, stop))] *)
Definition keySlice (data : Buffer) (start stop : Z) : Result PublicKey :=
  new_PublicKey (contents (slice data start stop)).

Definition parseConfigData (data : Buffer) : Result Config.t :=
  let view := new_DataView (buffer data) in
  isInitialized <- getUint8 view 0 ;;
  authority <- keySlice data 1 33 ;;
  totalProducts <- getBigUint64 view 33 ;;
  totalReviews <- getBigUint64 view 41 ;;
  totalUsers <- getBigUint64 view 49 ;;
  totalTransactions <- getBigUint64 view 57 ;;
  version <- getUint8 view 65 ;;
  Ok {| Config.isInitialized := isInitialized =? 1;
        Config.authority := authority;
        Config.totalProducts := Number totalProducts;
        Config.totalReviews := Number totalReviews;
        Config.totalUsers := Number totalUsers;
        Config.totalTransactions := Number totalTransactions;
        Config.version := version |}.

Definition parseProductData (data : Buffer) : Result Product.t :=
  let view := new_DataView (buffer data) in
  let offset := 1 in (* Skip is_initialized *)
  (* Read product_id string *)
  productIdLen <- getUint32 view offset ;;
  let offset := offset + 4 in
  let productId := decodeSlice data offset (offset + productIdLen) in
  let offset := offset + productIdLen in
  (* Read owner *)
  owner <- keySlice data offset (offset + 32) ;;
  let offset := offset + 32 in
  (* Read stats *)
  totalScores <- getUint32 view offset ;;
  let offset := offset + 4 in
  totalReviews <- getUint32 view offset ;;
  let offset := offset + 4 in
  (* Read metadata_uri string *)
  metadataUriLen <- getUint32 view offset ;;
  let offset := offset + 4 in
  let metadataUri := decodeSlice data offset (offset + metadataUriLen) in
  let offset := offset + metadataUriLen in
  (* Read status and timestamp *)
  status <- getUint8 view offset ;;
  let offset := offset + 1 in
  createdAt <- getBigInt64 view offset ;;
  Ok {| Product.productId := productId;
        Product.owner := owner;
        Product.totalScores := totalScores;
        Product.totalReviews := totalReviews;
        Product.metadataUri := metadataUri;
        Product.status := status =? 1;
        Product.createdAt := Number createdAt |}.

Definition parseReviewData (data : Buffer) : Result Review.t :=
  let view := new_DataView (buffer data) in
  let offset := 1 in (* Skip is_initialized *)
  (* Read product_id string *)
  productIdLen <- getUint32 view offset ;;
  let offset := offset + 4 in
  let productId := decodeSlice data offset (offset + productIdLen) in
  let offset := offset + productIdLen in
  (* Read reviewer *)
  reviewer <- keySlice data offset (offset + 32) ;;
  let offset := offset + 32 in
  (* Read score *)
  score <- getUint8 view offset ;;
  let offset := offset + 1 in
  (* Read comment string *)
  commentLen <- getUint32 view offset ;;
  let offset := offset + 4 in
  let comment := decodeSlice data offset (offset + commentLen) in
  let offset := offset + commentLen in
  (* Read timestamps *)
  createdAt <- getBigInt64 view offset ;;
  let offset := offset + 8 in
  updatedAt <- getBigInt64 view offset ;;
  Ok {| Review.productId := productId;
        Review.reviewer := reviewer;
        Review.score := score;
        Review.comment := comment;
        Review.createdAt := Number createdAt;
        Review.updatedAt := Number updatedAt |}.

Definition parseUserData (data : Buffer) : Result User.t :=
  let view := new_DataView (buffer data) in
  let offset := 1 in (* Skip is_initialized *)
  (* Read user address *)
  userAddress <- keySlice data offset (offset + 32) ;;
  let offset := offset + 32 in
  (* Read points and stats *)
  dailyPoints <- getBigUint64 view offset ;;
  let offset := offset + 8 in
  reviewPoints <- getBigUint64 view offset ;;
  let offset := offset + 8 in
  lastClaimTime <- getBigInt64 view offset ;;
  let offset := offset + 8 in
  totalReviews <- getUint32 view offset ;;
  Ok {| User.userAddress := userAddress;
        User.dailyPoints := Number dailyPoints;
        User.reviewPoints := Number reviewPoints;
        User.lastClaimTime := Number lastClaimTime;
        User.totalReviews := totalReviews |}.

Definition parseDailyClaimsData (data : Buffer) : Result DailyClaims.t :=
  let view := new_DataView (buffer data) in
  let offset := 1 in (* Skip is_initialized *)
  (* Read user *)
  user <- keySlice data offset (offset + 32) ;;
  let offset := offset + 32 in
  (* Read date string *)
  dateLen <- getUint32 view offset ;;
  let offset := offset + 4 in
  let date := decodeSlice data offset (offset + dateLen) in
  let offset := offset + dateLen in
  (* Read claims count *)
  claimsCount <- getUint8 view offset ;;
  Ok {| DailyClaims.user := user;
        DailyClaims.date := date;
        DailyClaims.claimsCount := claimsCount |}.

End Parsers.

(* ================================================================== *)
(** ** The client (client.ts, account lookups) *)
(* ================================================================== *)

(** [AccountInfo<Buffer>]: only [data] is read by the client. *)
Module AccountInfo.
Record t : Type := { data : Buffer }.
End AccountInfo.

(** The RPC connection at the time of a call: what [getAccountInfo]
    answers for each address ([null] for an account that does not exist),
    or the error it throws. *)
Record Connection : Type := {
  getAccountInfo : PublicKey -> Result (option AccountInfo.t)
}.

Record KalloViewClient : Type := {
  connection : Connection;
  programId : PublicKey
}.

(** How a promise settles. *)
Inductive Settled (A : Type) : Type :=
| Resolved (value : A)
| Rejected (error : JsError).

Arguments Resolved {A} value.
Arguments Rejected {A} error.

(** What an [async] lookup did: the addresses it asked the connection
    for, the [console.error] lines it wrote, and how its promise settled. *)
Record Outcome (A : Type) : Type := {
  requests : list PublicKey;
  logged : list (string * JsError);
  settled : Settled A
}.

(** [return value] inside the [try] block. *)
Definition returned {A : Type} (requests : list PublicKey) (value : A) : Outcome A :=
  {| requests := requests; logged := []; settled := Resolved value |}.

(** The [catch] block: [console.error(message, error); return null]. *)
Definition caught {A : Type} (requests : list PublicKey) (message : string)
           (error : JsError) : Outcome (option A) :=
  {| requests := requests; logged := [(message, error)]; settled := Resolved None |}.

Section Client.
Context {platform : Platform}.

Definition getConfig (this : KalloViewClient) : Outcome (option Config.t) :=
  match getConfigPDA (programId this) with
  | Throw error => caught [] "Error fetching config:" error
  | Ok (configPDA, _) =>
    match getAccountInfo (connection this) configPDA with
    | Throw error => caught [configPDA] "Error fetching config:" error
    | Ok None => returned [configPDA] None
    | Ok (Some accountInfo) =>
      match parseConfigData (AccountInfo.data accountInfo) with
      | Throw error => caught [configPDA] "Error fetching config:" error
      | Ok config => returned [configPDA] (Some config)
      end
    end
  end.

Definition getProduct (this : KalloViewClient) (productId : jsstring)
  : Outcome (option Product.t) :=
  match getProductPDA (programId this) productId with
  | Throw error => caught [] "Error fetching product:" error
  | Ok (productPDA, _) =>
    match getAccountInfo (connection this) productPDA with
    | Throw error => caught [productPDA] "Error fetching product:" error
    | Ok None => returned [productPDA] None
    | Ok (Some accountInfo) =>
      match parseProductData (AccountInfo.data accountInfo) with
      | Throw error => caught [productPDA] "Error fetching product:" error
      | Ok product => returned [productPDA] (Some product)
      end
    end
  end.

Definition getReview (this : KalloViewClient) (productId : jsstring)
           (reviewer : PublicKey) : Outcome (option Review.t) :=
  match getReviewPDA (programId this) productId reviewer with
  | Throw error => caught [] "Error fetching review:" error
  | Ok (reviewPDA, _) =>
    match getAccountInfo (connection this) reviewPDA with
    | Throw error => caught [reviewPDA] "Error fetching review:" error
    | Ok None => returned [reviewPDA] None
    | Ok (Some accountInfo) =>
      match parseReviewData (AccountInfo.data accountInfo) with
      | Throw error => caught [reviewPDA] "Error fetching review:" error
      | Ok review => returned [reviewPDA] (Some review)
      end
    end
  end.

Definition getUser (this : KalloViewClient) (userAddress : PublicKey)
  : Outcome (option User.t) :=
  match getUserPDA (programId this) userAddress with
  | Throw error => caught [] "Error fetching user:" error
  | Ok (userPDA, _) =>
    match getAccountInfo (connection this) userPDA with
    | Throw error => caught [userPDA] "Error fetching user:" error
    | Ok None => returned [userPDA] None
    | Ok (Some accountInfo) =>
      match parseUserData (AccountInfo.data accountInfo) with
      | Throw error => caught [userPDA] "Error fetching user:" error
      | Ok user => returned [userPDA] (Some user)
      end
    end
  end.

(** [date || getCurrentDateString()]: the empty string is falsy, like
    a missing argument. *)
Definition dateOrToday (date : option jsstring) (now : Z) : jsstring :=
  match date with
  | Some (c :: rest) => c :: rest
  | Some [] | None => getCurrentDateString now
  end.

Definition getDailyClaims (this : KalloViewClient) (userAddress : PublicKey)
           (date : option jsstring) (now : Z) : Outcome (option DailyClaims.t) :=
  let dateStr := dateOrToday date now in
  match getDailyClaimsPDA (programId this) userAddress dateStr with
  | Throw error => caught [] "Error fetching daily claims:" error
  | Ok (dailyClaimsPDA, _) =>
    match getAccountInfo (connection this) dailyClaimsPDA with
    | Throw error => caught [dailyClaimsPDA] "Error fetching daily claims:" error
    | Ok None => returned [dailyClaimsPDA] None
    | Ok (Some accountInfo) =>
      match parseDailyClaimsData (AccountInfo.data accountInfo) with
      | Throw error => caught [dailyClaimsPDA] "Error fetching daily claims:" error
      | Ok dailyClaims => returned [dailyClaimsPDA] (Some dailyClaims)
      end
    end
  end.

End Client.

(* ================================================================== *)
(** ** Vocabulary of the statements *)
(* ================================================================== *)

(** The UTF-8 length of the string fits the 32-bit length prefix.  Every
    JavaScript string does (a string holds fewer than 2^30 code units of
    at most three bytes each); the lists of this model are unbounded, so
    the statements say it. *)
Definition fits (s : jsstring) : Prop := len (utf8 s) <= 4294967295.

(** Every element is a byte. *)
Definition wellFormed (b : bytes) : Prop := Forall (fun x => 0 <= x < 256) b.

(** The payer is the first account, it signs and is writable, and no
    other account of the list signs. *)
Definition payerFirst (payer : PublicKey) (keys : list AccountMeta) : Prop :=
  match keys with
  | [] => False
  | first :: others =>
    pubkey first = payer /\ isSigner first = true /\ isWritable first = true /\
    Forall (fun account => isSigner account = false) others
  end.

(** The builder returned an instruction whose data is [payload]. *)
Definition builds (r : Result TransactionInstruction.t) (payload : bytes) : Prop :=
  exists ix, r = Ok ix /\ TransactionInstruction.data ix = payload.

(** The builder returned an instruction that lists [payer] as in
    [payerFirst]. *)
Definition buildsFor (r : Result TransactionInstruction.t) (payer : PublicKey) : Prop :=
  exists ix, r = Ok ix /\ payerFirst payer (TransactionInstruction.keys ix).

Definition isDigit (c : Z) : bool := (48 <=? c) && (c <=? 57).

(** The form YYYY-MM-DD: ten characters, digits around two hyphens. *)
Definition isDateForm (s : jsstring) : bool :=
  match s with
  | [y1; y2; y3; y4; h1; m1; m2; h2; d1; d2] =>
    forallb isDigit [y1; y2; y3; y4; m1; m2; d1; d2] && (h1 =? 45) && (h2 =? 45)
  | _ => false
  end.

(** The body of a lookup's [try] block: derive the address, fetch the
    account, and parse its data unless the account is missing. *)
Definition tryLookup {A : Type} (derived : Result (PublicKey * Z))
           (conn : Connection) (parse : Buffer -> Result A) : Result (option A) :=
  pda <- derived ;;
  accountInfo <- getAccountInfo conn (fst pda) ;;
  match accountInfo with
  | None => Ok None
  | Some info => record <- parse (AccountInfo.data info) ;; Ok (Some record)
  end.

(** A lookup that never rejects: it resolves to what its [try] block
    returned, and to [null] after logging when the block threw. *)
Definition collapsesToNull {A : Type} (tried : Result (option A)) (message : string)
           (outcome : Outcome (option A)) : Prop :=
  match tried with
  | Ok value => settled outcome = Resolved value /\ logged outcome = []
  | Throw error =>
    settled outcome = Resolved None /\ logged outcome = [(message, error)]
  end.

(** What a lookup does with the steps of its [try] block: its promise
    never rejects; it resolves to [null] exactly when the derivation, the
    fetch or the parse threw or the account is missing, and to a record
    exactly when all three succeeded; a thrown error is logged with the
    lookup's message. *)
Definition swallowsErrors {A : Type} (derived : Result (PublicKey * Z))
           (conn : Connection) (parse : Buffer -> Result A) (message : string)
           (outcome : Outcome (option A)) : Prop :=
  (forall error, settled outcome <> Rejected error)
  /\ (settled outcome = Resolved None <->
      (exists error, derived = Throw error)
      \/ exists address bump,
          derived = Ok (address, bump)
          /\ ((exists error, getAccountInfo conn address = Throw error)
              \/ getAccountInfo conn address = Ok None
              \/ exists info error,
                  getAccountInfo conn address = Ok (Some info)
                  /\ parse (AccountInfo.data info) = Throw error))
  /\ (forall record,
         settled outcome = Resolved (Some record) <->
         exists address bump info,
           derived = Ok (address, bump)
           /\ getAccountInfo conn address = Ok (Some info)
           /\ parse (AccountInfo.data info) = Ok record)
  /\ (forall error,
         tryLookup derived conn parse = Throw error ->
         logged outcome = [(message, error)]).

(** What the specification asks of one lookup, given what the connection
    answered for the record's address: [null] exactly for a missing or
    empty blob, and a transport or parse failure rejected to the caller. *)
Definition nullOnlyWhenAbsent {A : Type} (fetched : Result (option AccountInfo.t))
           (parse : Buffer -> Result A) (outcome : Outcome (option A)) : Prop :=
  (settled outcome = Resolved None <->
   (fetched = Ok None \/
    exists info, fetched = Ok (Some info) /\ byteLength (AccountInfo.data info) = 0))
  /\ (forall error, fetched = Throw error -> settled outcome = Rejected error)
  /\ (forall info error,
         fetched = Ok (Some info) -> byteLength (AccountInfo.data info) <> 0 ->
         parse (AccountInfo.data info) = Throw error ->
         settled outcome = Rejected error).

(** [nullOnlyWhenAbsent] for [getConfig] of a client. *)
Definition configNullOnlyWhenAbsent (platform : Platform) (this : KalloViewClient)
  : Prop :=
  forall address bump,
    getConfigPDA (programId this) = Ok (address, bump) ->
    nullOnlyWhenAbsent (getAccountInfo (connection this) address)
                       parseConfigData (getConfig this).

(** *** Concrete values for closed examples *)

(** A stand-in for the hash: a polynomial checksum on 32 bytes. *)
Definition toyHash (b : bytes) : bytes :=
  be_bytes 32 (fold_left (fun acc x => (acc * 257 + x + 1) mod 2 ^ 256) b 0).

(** A platform to run the model on: the checksum as hash, a parity test
    as curve test, and text decoded byte by byte. *)
Definition examplePlatform : Platform :=
  {| sha256 := toyHash;
     isOnCurve := fun h => Z.even (be_value h / 4);
     domainSeparationSuffix := utf8 (str "ProgramDerivedAddress");
     TextDecoder_decode := fun b => b |}.

(** [PROGRAM_ID] of client.ts, base58
    [AYGsCLrgGZ7DFSQpKWphG2ryedMG9KXdPtwEqgrDA6c2]. *)
Definition PROGRAM_ID : PublicKey :=
  {| bn := 64108502456577500663030473231206615998442399066212324992451840880267636098603 |}.

Definition exampleKey (n : Z) : PublicKey := {| bn := n |}.

(** A connection whose requests all fail. *)
Definition offline : Connection :=
  {| getAccountInfo := fun _ => Throw TransportError |}.

(** A connection that answers every address with the same account data. *)
Definition serving (data : Buffer) : Connection :=
  {| getAccountInfo := fun _ => Ok (Some {| AccountInfo.data := data |}) |}.

(** A two-byte buffer handed out at offset 70 of an 80-byte array buffer,
    as Node's pooled buffers are. *)
Definition pooledShortBlob : Buffer :=
  {| buffer := repeat 0 80; byteOffset := 70; byteLength := 2 |}.

(** The first seven bytes of a 71-byte array buffer: a product blob that
    announces a five-byte productId and ends after two of them. *)
Definition pooledOverrunBlob : Buffer :=
  {| buffer := [1; 5; 0; 0; 0; 97; 98] ++ repeat 0 64;
     byteOffset := 0; byteLength := 7 |}.

(** A complete product record: productId "ab", metadataUri "c". *)
Definition productBlob : bytes :=
  [1; 2; 0; 0; 0; 97; 98] ++ repeat 7 32 ++ [9; 0; 0; 0; 2; 0; 0; 0]
  ++ [1; 0; 0; 0; 99] ++ [1] ++ [0; 241; 83; 101; 0; 0; 0; 0].

(** A complete review record: productId "ab", score 5, comment "ok". *)
Definition reviewBlob : bytes :=
  [1; 2; 0; 0; 0; 97; 98] ++ repeat 7 32 ++ [5] ++ [2; 0; 0; 0; 111; 107]
  ++ [0; 241; 83; 101; 0; 0; 0; 0] ++ [0; 241; 83; 101; 0; 0; 0; 0].

(** A complete user record: dailyPoints 100, reviewPoints 50,
    lastClaimTime 1700000000, totalReviews 3. *)
Definition userBlob : bytes :=
  [1] ++ repeat 7 32 ++ [100; 0; 0; 0; 0; 0; 0; 0] ++ [50; 0; 0; 0; 0; 0; 0; 0]
  ++ [0; 241; 83; 101; 0; 0; 0; 0] ++ [3; 0; 0; 0].

(** A complete daily-claims record for the date "2025-11-03". *)
Definition dailyClaimsBlob : bytes :=
  [1] ++ repeat 7 32 ++ [10; 0; 0; 0] ++ utf8 (str "2025-11-03") ++ [4].


(* ================================================================== *)
(** ** Record layouts read by the parsers *)
(* ================================================================== *)

(** The [n] little-endian bytes of [v]. *)
Fixpoint le_bytes (n : nat) (v : Z) : bytes :=
  match n with
  | O => []
  | S k => v mod 256 :: le_bytes k (v / 256)
  end.

(** An unsigned 32-bit, an unsigned 64-bit and a signed 64-bit (two's
    complement) field. *)
Definition u32 (v : Z) : bytes := le_bytes 4 v.
Definition u64 (v : Z) : bytes := le_bytes 8 v.
Definition i64 (v : Z) : bytes := le_bytes 8 (v mod 2 ^ 64).

(** A string field holding the bytes [text]: the length on four
    little-endian bytes, then the bytes, as [encodeString] writes it. *)
Definition stringField (text : bytes) : bytes := u32 (len text) ++ text.

(** The key is the number of 32 bytes. *)
Definition validKey (key : PublicKey) : Prop := 0 <= bn key < 2 ^ 256.

(** The account layouts, field after field, as the offsets of the five
    parsers walk them; [rest] is whatever follows the record. *)
Definition configRecord (flag : Z) (authority : PublicKey)
           (totalProducts totalReviews totalUsers totalTransactions version : Z)
           (rest : bytes) : bytes :=
  [flag] ++ toBuffer authority ++ u64 totalProducts ++ u64 totalReviews
  ++ u64 totalUsers ++ u64 totalTransactions ++ [version] ++ rest.

Definition productRecord (flag : Z) (productId : bytes) (owner : PublicKey)
           (totalScores totalReviews : Z) (metadataUri : bytes)
           (status createdAt : Z) (rest : bytes) : bytes :=
  [flag] ++ stringField productId ++ toBuffer owner ++ u32 totalScores
  ++ u32 totalReviews ++ stringField metadataUri ++ [status] ++ i64 createdAt
  ++ rest.

Definition reviewRecord (flag : Z) (productId : bytes) (reviewer : PublicKey)
           (score : Z) (comment : bytes) (createdAt updatedAt : Z)
           (rest : bytes) : bytes :=
  [flag] ++ stringField productId ++ toBuffer reviewer ++ [score]
  ++ stringField comment ++ i64 createdAt ++ i64 updatedAt ++ rest.

Definition userRecord (flag : Z) (userAddress : PublicKey)
           (dailyPoints reviewPoints lastClaimTime totalReviews : Z)
           (rest : bytes) : bytes :=
  [flag] ++ toBuffer userAddress ++ u64 dailyPoints ++ u64 reviewPoints
  ++ i64 lastClaimTime ++ u32 totalReviews ++ rest.

Definition dailyClaimsRecord (flag : Z) (user : PublicKey) (date : bytes)
           (claimsCount : Z) (rest : bytes) : bytes :=
  [flag] ++ toBuffer user ++ stringField date ++ [claimsCount] ++ rest.

(* ================================================================== *)
(** ** The client (client.ts, program interactions) *)
(* ================================================================== *)

(** [Keypair]: the client reads [publicKey] and hands the pair on to the
    sender as a signer; the secret key is never looked at. *)
Record Keypair : Type := {
  publicKey : PublicKey;
  secretKey : bytes
}.

Module Transaction.
Record t : Type := { instructions : list TransactionInstruction.t }.
End Transaction.

(** [new Transaction()] *)
Definition new_Transaction : Transaction.t :=
  {| Transaction.instructions := [] |}.

(** [transaction.add(instruction)] *)
Definition Transaction_add (transaction : Transaction.t)
           (instruction : TransactionInstruction.t) : Transaction.t :=
  {| Transaction.instructions :=
       Transaction.instructions transaction ++ [instruction] |}.

Record ConfirmOptions : Type := {
  commitment : string;
  preflightCommitment : option string
}.

(** [sendAndConfirmTransaction(connection, transaction, signers, options)]
    of the Solana library: the signature of the confirmed transaction, or
    the error it throws. *)
Class Sender : Type := {
  sendAndConfirmTransaction :
    Connection -> Transaction.t -> list Keypair -> ConfirmOptions -> Result string
}.

(** What an [async] program interaction did: the transactions it handed
    to the sender, with signers and options, and how its promise settled. *)
Record Submission (A : Type) : Type := {
  sent : list (Transaction.t * list Keypair * ConfirmOptions);
  promise : Settled A
}.

(** A [throw] that leaves the method: nothing was sent, the promise
    rejects. *)
Definition thrown {A : Type} (error : JsError) : Submission A :=
  {| sent := []; promise := Rejected error |}.

Section Interactions.
Context {platform : Platform} {sender : Sender}.

(** [return await sendAndConfirmTransaction(this.connection, transaction,
    [signer], { commitment: 'confirmed' })] *)
Definition sendConfirmed (conn : Connection) (transaction : Transaction.t)
           (signers : list Keypair) : Submission string :=
  let options := {| commitment := "confirmed"; preflightCommitment := None |} in
  {| sent := [(transaction, signers, options)];
     promise :=
       match sendAndConfirmTransaction conn transaction signers options with
       | Ok signature => Resolved signature
       | Throw error => Rejected error
       end |}.

Definition createProduct (this : KalloViewClient) (owner : Keypair)
           (productId metadataUri : jsstring) : Submission string :=
  match getProductPDA (programId this) productId with
  | Throw error => thrown error
  | Ok (productPDA, _) =>
    match getConfigPDA (programId this) with
    | Throw error => thrown error
    | Ok (configPDA, _) =>
      match createCreateProductInstruction (programId this) (publicKey owner)
              productPDA configPDA productId metadataUri with
      | Throw error => thrown error
      | Ok instruction =>
        let transaction := Transaction_add new_Transaction instruction in
        sendConfirmed (connection this) transaction [owner]
      end
    end
  end.

Definition updateProduct (this : KalloViewClient) (owner : Keypair)
           (productId metadataUri : jsstring) : Submission string :=
  match getProductPDA (programId this) productId with
  | Throw error => thrown error
  | Ok (productPDA, _) =>
    match createUpdateProductInstruction (programId this) (publicKey owner)
            productPDA metadataUri with
    | Throw error => thrown error
    | Ok instruction =>
      let transaction := Transaction_add new_Transaction instruction in
      sendConfirmed (connection this) transaction [owner]
    end
  end.

Definition deleteProduct (this : KalloViewClient) (owner : Keypair)
           (productId : jsstring) : Submission string :=
  match getProductPDA (programId this) productId with
  | Throw error => thrown error
  | Ok (productPDA, _) =>
    let instruction :=
      createDeleteProductInstruction (programId this) (publicKey owner) productPDA in
    let transaction := Transaction_add new_Transaction instruction in
    sendConfirmed (connection this) transaction [owner]
  end.

Definition addReview (this : KalloViewClient) (reviewer : Keypair)
           (productId : jsstring) (score : Z) (comment : jsstring)
  : Submission string :=
  match getProductPDA (programId this) productId with
  | Throw error => thrown error
  | Ok (productPDA, _) =>
    match getReviewPDA (programId this) productId (publicKey reviewer) with
    | Throw error => thrown error
    | Ok (reviewPDA, _) =>
      match getUserPDA (programId this) (publicKey reviewer) with
      | Throw error => thrown error
      | Ok (userPDA, _) =>
        match getConfigPDA (programId this) with
        | Throw error => thrown error
        | Ok (configPDA, _) =>
          match createAddReviewInstruction (programId this) (publicKey reviewer)
                  productPDA reviewPDA userPDA configPDA productId score comment
          with
          | Throw error => thrown error
          | Ok instruction =>
            let transaction := Transaction_add new_Transaction instruction in
            sendConfirmed (connection this) transaction [reviewer]
          end
        end
      end
    end
  end.

Definition updateReview (this : KalloViewClient) (reviewer : Keypair)
           (productId : jsstring) (score : Z) (comment : jsstring)
  : Submission string :=
  match getReviewPDA (programId this) productId (publicKey reviewer) with
  | Throw error => thrown error
  | Ok (reviewPDA, _) =>
    match createUpdateReviewInstruction (programId this) (publicKey reviewer)
            reviewPDA score comment with
    | Throw error => thrown error
    | Ok instruction =>
      let transaction := Transaction_add new_Transaction instruction in
      sendConfirmed (connection this) transaction [reviewer]
    end
  end.

(** [now] is the time value [getCurrentDateString] reads from the clock. *)
Definition dailyClaim (this : KalloViewClient) (user : Keypair) (now : Z)
  : Submission string :=
  match getUserPDA (programId this) (publicKey user) with
  | Throw error => thrown error
  | Ok (userPDA, _) =>
    let today := getCurrentDateString now in
    match getDailyClaimsPDA (programId this) (publicKey user) today with
    | Throw error => thrown error
    | Ok (dailyClaimsPDA, _) =>
      match getConfigPDA (programId this) with
      | Throw error => thrown error
      | Ok (configPDA, _) =>
        let instruction :=
          createDailyClaimInstruction (programId this) (publicKey user)
                                      userPDA dailyClaimsPDA configPDA in
        let transaction := Transaction_add new_Transaction instruction in
        sendConfirmed (connection this) transaction [user]
      end
    end
  end.

End Interactions.

(** *** Vocabulary for the program interactions *)

(** The addresses an instruction names, in order. *)
Definition accountsOf (ix : TransactionInstruction.t) : list PublicKey :=
  map pubkey (TransactionInstruction.keys ix).

(** Everything a method handed to the sender is one transaction of one
    instruction for [program], signed by [payer] alone, naming [payer]
    first and then [accounts]. *)
Definition sendsOnly {A : Type} (s : Submission A) (program : PublicKey)
           (payer : Keypair) (accounts : list PublicKey) : Prop :=
  forall transaction signers options,
    In (transaction, signers, options) (sent s) ->
    signers = [payer]
    /\ exists ix,
        Transaction.instructions transaction = [ix]
        /\ TransactionInstruction.programId ix = program
        /\ accountsOf ix = publicKey payer :: accounts.


(** The method handed the sender exactly one transaction, of one
    instruction carrying [payload], signed by [payer] alone. *)
Definition delivers {A : Type} (s : Submission A) (payer : Keypair)
           (payload : bytes) : Prop :=
  exists ix options,
    sent s = [({| Transaction.instructions := [ix] |}, [payer], options)]
    /\ TransactionInstruction.data ix = payload.

(* ================================================================== *)
(** ** The initialization script *)
(* ================================================================== *)

Module InitScript.

(** [simulation.value]: [err] is [null] when the transaction would
    succeed, and an error description otherwise. *)
Record SimulationValue : Type := {
  err : option string;
  logs : list string
}.

(** Truthiness of [simulation.value.err]: [null] and the empty string are
    falsy. *)
Definition errTruthy (e : option string) : bool :=
  match e with
  | None => false
  | Some description => negb (String.eqb description "")
  end.

(** What the script takes from its environment: the key files under
    [$HOME/.config/solana] with [fs.existsSync] and the reading of a key
    file ([readFileSync], [JSON.parse], [Keypair.fromSecretKey], any of
    which can throw), [Keypair.generate()], and the cluster behind the
    connection, whose answers depend on its state and change it. *)
Class Environment : Type := {
  deployerKeypairPath : string;
  defaultKeypairPath : string;
  existsSync : string -> bool;
  readKeypairFile : string -> Result Keypair;
  generateKeypair : Keypair;
  Cluster : Type;
  getBalance : PublicKey -> Cluster -> Result Z * Cluster;
  requestAirdrop : PublicKey -> Z -> Cluster -> Result string * Cluster;
  confirmTransaction : string -> Cluster -> Result unit * Cluster;
  fetchAccountInfo : PublicKey -> Cluster -> Result (option AccountInfo.t) * Cluster;
  simulateTransaction :
    Transaction.t -> list Keypair -> Cluster -> Result SimulationValue * Cluster;
  submitAndConfirm :
    Transaction.t -> list Keypair -> ConfirmOptions -> Cluster
    -> Result string * Cluster
}.

(** The calls the script makes on the cluster, each with the answer it
    got, and its [console.error] lines. *)
Inductive Event : Type :=
| GotBalance (key : PublicKey) (answer : Result Z)
| RequestedAirdrop (key : PublicKey) (lamports : Z) (answer : Result string)
| ConfirmedTransaction (signature : string) (answer : Result unit)
| FetchedAccount (key : PublicKey) (answer : Result (option AccountInfo.t))
| Simulated (transaction : Transaction.t) (signers : list Keypair)
            (answer : Result SimulationValue)
| Submitted (transaction : Transaction.t) (signers : list Keypair)
            (options : ConfirmOptions) (answer : Result string)
| ConsoleError (error : JsError).

Section Script.
Context {platform : Platform} {environment : Environment}.

(** A step of the script: from the cluster's state and the events so far
    to a value or a thrown error, the new state and the events since. *)
Definition Step (A : Type) : Type :=
  Cluster -> list Event -> Result A * Cluster * list Event.

Definition ret {A : Type} (a : A) : Step A :=
  fun cluster events => (Ok a, cluster, events).

Definition throw {A : Type} (error : JsError) : Step A :=
  fun cluster events => (Throw error, cluster, events).

Definition andThen {A B : Type} (step : Step A) (k : A -> Step B) : Step B :=
  fun cluster events =>
    match step cluster events with
    | (Ok a, cluster', events') => k a cluster' events'
    | (Throw error, cluster', events') => (Throw error, cluster', events')
    end.

(** [try { body } catch (error) { handler }] *)
Definition tryCatch {A : Type} (body : Step A) (handler : JsError -> Step A)
  : Step A :=
  fun cluster events =>
    match body cluster events with
    | (Ok a, cluster', events') => (Ok a, cluster', events')
    | (Throw error, cluster', events') => handler error cluster' events'
    end.

(** An awaited call on the cluster, recorded with its answer. *)
Definition call {A : Type} (request : Cluster -> Result A * Cluster)
           (record : Result A -> Event) : Step A :=
  fun cluster events =>
    let '(answer, cluster') := request cluster in
    (answer, cluster', events ++ [record answer]).

Definition consoleError (error : JsError) : Step unit :=
  fun cluster events => (Ok tt, cluster, events ++ [ConsoleError error]).

Notation "x <~ step ;; k" := (andThen step (fun x => k))
  (at level 61, step at next level, right associativity).

(** Load deployer keypair: the deployer key file, else the default key
    file, else a new keypair; a file that exists and cannot be read or
    parsed is passed over like a missing one. *)
Definition loadKeypair : Keypair :=
  let deployer :=
    if existsSync deployerKeypairPath
    then match readKeypairFile deployerKeypairPath with
         | Ok keypair => Some keypair
         | Throw _ => None
         end
    else None in
  match deployer with
  | Some keypair => keypair
  | None =>
    let fallback :=
      if existsSync defaultKeypairPath
      then match readKeypairFile defaultKeypairPath with
           | Ok keypair => Some keypair
           | Throw _ => None
           end
      else None in
    match fallback with
    | Some keypair => keypair
    | None => generateKeypair
    end
  end.

Definition debugAccountInfo (pubkey : PublicKey) : Step unit :=
  accountInfo <~ call (fetchAccountInfo pubkey) (FetchedAccount pubkey) ;;
  ret tt.

Definition confirmedOptions : ConfirmOptions :=
  {| commitment := "confirmed"; preflightCommitment := Some "confirmed"%string |}.

(** [initializeProgram()]: the promise's value is the config address, or
    [undefined] ([None]) after a simulation that reported an error. The
    [catch] block prints the error, prints its [transactionLogs] where it
    has some (an array of strings or [undefined] on the errors of the
    Solana library, so that the printing does not throw), and throws the
    error again. *)
Definition initializeProgram : Step (option PublicKey) :=
  tryCatch
    (let payer := loadKeypair in
     (* Check balance *)
     balance <~ call (getBalance (publicKey payer)) (GotBalance (publicKey payer)) ;;
     (* Request airdrop if needed *)
     _ <~ (if balance <? 1000000000
           then tryCatch
                  (airdropSig <~ call (requestAirdrop (publicKey payer) 2000000000)
                                      (RequestedAirdrop (publicKey payer) 2000000000) ;;
                   _ <~ call (confirmTransaction airdropSig)
                             (ConfirmedTransaction airdropSig) ;;
                   balance' <~ call (getBalance (publicKey payer))
                                    (GotBalance (publicKey payer)) ;;
                   ret tt)
                  (fun airdropError => ret tt)
           else ret tt) ;;
     (* Get config PDA *)
     match getConfigPDA PROGRAM_ID with
     | Throw error => throw error
     | Ok (configPDA, _) =>
       (* Debug account information *)
       _ <~ debugAccountInfo PROGRAM_ID ;;
       _ <~ debugAccountInfo configPDA ;;
       _ <~ debugAccountInfo SystemProgram_programId ;;
       (* Check if already initialized *)
       configAccount <~ call (fetchAccountInfo configPDA) (FetchedAccount configPDA) ;;
       if match configAccount with
          | Some info => 0 <? byteLength (AccountInfo.data info)
          | None => false
          end
       then ret (Some configPDA)
       else
         (* Create initialize instruction *)
         let initializeIx :=
           createInitializeInstruction PROGRAM_ID (publicKey payer) configPDA in
         (* Create and send transaction *)
         let transaction := Transaction_add new_Transaction initializeIx in
         (* First simulate the transaction *)
         wouldFail <~ tryCatch
                       (simulation <~ call (simulateTransaction transaction [payer])
                                           (Simulated transaction [payer]) ;;
                        ret (errTruthy (err simulation)))
                       (fun simError => ret false) ;;
         if wouldFail then ret None
         else
           signature <~ call (submitAndConfirm transaction [payer] confirmedOptions)
                             (Submitted transaction [payer] confirmedOptions) ;;
           (* Verify the initialization *)
           finalConfigAccount <~ call (fetchAccountInfo configPDA)
                                      (FetchedAccount configPDA) ;;
           ret (Some configPDA)
     end)
    (fun error => _ <~ consoleError error ;; throw error).

(** A run from a state of the cluster: how the promise settles and what
    the script did. *)
Definition run (cluster : Cluster) : Settled (option PublicKey) * list Event :=
  match initializeProgram cluster [] with
  | (Ok value, _, events) => (Resolved value, events)
  | (Throw error, _, events) => (Rejected error, events)
  end.

End Script.
End InitScript.

(** *** Vocabulary for the runs of the script *)

Module InitScriptSpec.
Import InitScript.





Definition isSubmitted (event : Event) : bool :=
  match event with Submitted _ _ _ _ => true | _ => false end.


(** The error an event's answer threw, if it threw. *)
Definition threw (event : Event) : option JsError :=
  match event with
  | GotBalance _ (Throw e) | RequestedAirdrop _ _ (Throw e)
  | ConfirmedTransaction _ (Throw e) | FetchedAccount _ (Throw e)
  | Simulated _ _ (Throw e) | Submitted _ _ _ (Throw e) => Some e
  | _ => None
  end.

(** The calls whose error leaves the script: the first reading of the
    balance, a fetch of an account, and the submission. The airdrop
    request, its confirmation, the second reading of the balance and the
    simulation are inside [try] blocks of their own. *)
Definition mayReject (before : list Event) (event : Event) : Prop :=
  match event with
  | GotBalance _ _ => before = []
  | FetchedAccount _ _ | Submitted _ _ _ _ => True
  | _ => False
  end.

(** The transaction of the script: one Initialize instruction for the
    program, naming the payer (signer, writable), the config address
    (writable) and the system program, in this order. *)
Definition initializeTransaction (payer configPDA : PublicKey) : Transaction.t :=
  {| Transaction.instructions :=
       [ {| TransactionInstruction.keys :=
              [ meta payer true true;
                meta configPDA false true;
                meta SystemProgram_programId false false ];
            TransactionInstruction.programId := PROGRAM_ID;
            TransactionInstruction.data := [0] |} ] |}.

End InitScriptSpec.

(** *** More concrete values for closed examples *)

Definition exampleKeypair : Keypair :=
  {| publicKey := exampleKey 1; secretKey := [] |}.

(** A sender that confirms everything. *)
Definition exampleSender : Sender :=
  {| sendAndConfirmTransaction := fun _ _ _ _ => Ok "signature"%string |}.

Definition exampleClient : KalloViewClient :=
  {| connection := offline; programId := PROGRAM_ID |}.

(** The config address of [PROGRAM_ID] on the example platform. *)
Definition exampleConfigPDA : PublicKey :=
  {| bn := 11072221281021502912788905890181404273046659820086863115621615562123010382254 |}.

(** An environment for the script. Only the default key file exists; the
    balance is half a SOL and the airdrop fails; the cluster's state is a
    flag saying whether the program was initialized, which a submission
    sets, and every account holds data once it is set or when
    [initialized] says so from the start. With [down] the first call
    already fails. *)
Definition exampleEnvironment (initialized down : bool)
           (simulation : Result InitScript.SimulationValue)
  : InitScript.Environment :=
  {| InitScript.deployerKeypairPath := "/home/dev/.config/solana/kalloview-deployer.json";
     InitScript.defaultKeypairPath := "/home/dev/.config/solana/id.json";
     InitScript.existsSync := fun path => String.eqb path "/home/dev/.config/solana/id.json";
     InitScript.readKeypairFile := fun _ => Ok exampleKeypair;
     InitScript.generateKeypair := {| publicKey := exampleKey 9; secretKey := [] |};
     InitScript.Cluster := bool;
     InitScript.getBalance := fun _ c =>
       (if down then Throw TransportError else Ok 500000000, c);
     InitScript.requestAirdrop := fun _ _ c => (Throw TransportError, c);
     InitScript.confirmTransaction := fun _ c => (Ok tt, c);
     InitScript.fetchAccountInfo := fun _ c =>
       (Ok (if initialized || c
            then Some {| AccountInfo.data := Buffer_of (repeat 1 66) |}
            else None), c);
     InitScript.simulateTransaction := fun _ _ c => (simulation, c);
     InitScript.submitAndConfirm := fun _ _ _ _ => (Ok "signature"%string, true) |}.

Definition simulationOk : Result InitScript.SimulationValue :=
  Ok {| InitScript.err := None; InitScript.logs := [] |}.

Definition simulationFailed : Result InitScript.SimulationValue :=
  Ok {| InitScript.err := Some "AccountNotFound"%string; InitScript.logs := [] |}.

Module InitScriptExamples.
Import InitScript.

(** A fresh cluster: the config address holds nothing until the script
    submits. *)
Definition fresh : Environment := exampleEnvironment false false simulationOk.

(** A cluster on which the program was initialized before. *)
Definition initialized : Environment := exampleEnvironment true false simulationOk.

(** A cluster that cannot be reached. *)
Definition unreachable : Environment := exampleEnvironment false true simulationOk.

(** A fresh cluster whose simulation reports an error. *)
Definition failing : Environment := exampleEnvironment false false simulationFailed.

End InitScriptExamples.

(* ================================================================== *)
(** * Properties *)
(* ================================================================== *)

(** ** Sanity checks of the platform model *)

Example utf8_two_bytes : utf8 [0xE9] = [0xC3; 0xA9].
Proof. reflexivity. Qed.

Example utf8_three_bytes : utf8 [0x20AC] = [0xE2; 0x82; 0xAC].
Proof. reflexivity. Qed.

Example utf8_surrogate_pair : utf8 [0xD83D; 0xDE00] = [0xF0; 0x9F; 0x98; 0x80].
Proof. reflexivity. Qed.

Example utf8_lone_surrogate : utf8 [0xD83D; 0x41] = [0xEF; 0xBF; 0xBD; 0x41].
Proof. reflexivity. Qed.

Example toISOString_2023 :
  toISOString 1700000000000 = str "2023-11-14T22:13:20.000Z".
Proof. reflexivity. Qed.

Example toISOString_leap_day : toISOString 951782400000 = str "2000-02-29T00:00:00.000Z".
Proof. reflexivity. Qed.

Example toISOString_before_epoch : toISOString (-1) = str "1969-12-31T23:59:59.999Z".
Proof. reflexivity. Qed.

Example toISOString_year_10000 :
  toISOString 253402300800000 = str "+010000-01-01T00:00:00.000Z".
Proof. reflexivity. Qed.

Example split_on_T : split 84 (str "aTbTT") = [str "a"; str "b"; str ""; str ""].
Proof. reflexivity. Qed.

Example Number_rounds_to_even : Number (2 ^ 53 + 1) = 2 ^ 53 /\ Number (2 ^ 53 + 3) = 2 ^ 53 + 4.
Proof. split; reflexivity. Qed.

Example toBuffer_clock :
  toBuffer SYSVAR_CLOCK_PUBKEY
  = [6; 167; 213; 23; 24; 199; 116; 201; 40; 86; 99; 152; 105; 29; 94; 182;
     139; 94; 184; 163; 155; 75; 109; 92; 115; 85; 91; 33; 0; 0; 0; 0].
Proof. reflexivity. Qed.

(** The user scenario of the specification, on a buffer of its own. *)
Example parseUserData_scenario :
  parseUserData (Buffer_of userBlob)
  = Ok {| User.userAddress := {| bn := be_value (repeat 7 32) |};
          User.dailyPoints := 100;
          User.reviewPoints := 50;
          User.lastClaimTime := 1700000000;
          User.totalReviews := 3 |}.
Proof. reflexivity. Qed.

(** ** Lengths and little-endian words *)

Lemma len_nonneg (b : bytes) : 0 <= len b.
Proof. unfold len. lia. Qed.

Lemma le_value_le32 (v : Z) : 0 <= v <= 4294967295 -> le_value (le32 v) = v.
Proof.
  intros Hv. unfold le32, ToUint8, le_value.
  rewrite !Z.shiftr_div_pow2 by lia.
  change (2 ^ 8) with 256. change (2 ^ 16) with 65536. change (2 ^ 24) with 16777216.
  Z.div_mod_to_equations. lia.
Qed.

Lemma le32_bytes (v : Z) : wellFormed (le32 v).
Proof.
  unfold wellFormed, le32, ToUint8. repeat constructor; apply Z.mod_pos_bound; lia.
Qed.

Lemma wellFormed_check (b : bytes) :
  forallb (fun x => (0 <=? x) && (x <? 256)) b = true -> wellFormed b.
Proof.
  unfold wellFormed. rewrite forallb_forall, Forall_forall.
  intros H x Hin. specialize (H x Hin).
  apply andb_true_iff in H. destruct H as [H1 H2].
  apply Z.leb_le in H1. apply Z.ltb_lt in H2. lia.
Qed.

(** ** The string encoder *)

Lemma encodeString_ok (s : jsstring) :
  fits s -> encodeString s = Ok (le32 (len (utf8 s)) ++ utf8 s).
Proof.
  intros Hfit. unfold fits in Hfit. unfold encodeString, writeUInt32LE.
  pose proof (len_nonneg (utf8 s)) as Hpos.
  destruct (len (utf8 s) <? 0) eqn:Hneg; [apply Z.ltb_lt in Hneg; lia|].
  destruct (4294967295 <? len (utf8 s)) eqn:Hbig; [apply Z.ltb_lt in Hbig; lia|].
  cbn. now rewrite app_nil_r.
Qed.

(** Outside [fits] the length does not fit the prefix and the write throws. *)
Lemma encodeString_throws (s : jsstring) :
  ~ fits s -> encodeString s = Throw RangeError.
Proof.
  intros Hfit. unfold fits in Hfit. unfold encodeString, writeUInt32LE.
  destruct (4294967295 <? len (utf8 s)) eqn:Hbig.
  - now rewrite orb_true_r.
  - apply Z.ltb_ge in Hbig. lia.
Qed.

(** C4. For every string, [encodeString] returns a four-byte prefix whose
    little-endian value is the byte length of the string's UTF-8 encoding,
    followed by exactly those UTF-8 bytes; the empty string gives four zero
    bytes and "x" gives 01 00 00 00 78. *)
Theorem encodeString_layout :
  (forall s : jsstring, fits s ->
     exists prefix : bytes,
       encodeString s = Ok (prefix ++ utf8 s) /\
       List.length prefix = 4%nat /\
       wellFormed prefix /\
       le_value prefix = len (utf8 s)) /\
  encodeString (str "") = Ok [0; 0; 0; 0] /\
  encodeString (str "x") = Ok [0x01; 0x00; 0x00; 0x00; 0x78].
Proof.
  split; [|split; reflexivity].
  intros s Hfit. exists (le32 (len (utf8 s))).
  split; [now apply encodeString_ok|].
  split; [reflexivity|].
  split; [apply le32_bytes|].
  apply le_value_le32. pose proof (len_nonneg (utf8 s)). unfold fits in Hfit. lia.
Qed.

Lemma encodeString_layout_witness :
  exists prefix : bytes,
    encodeString [0x20AC; 0x35] = Ok (prefix ++ [0xE2; 0x82; 0xAC; 0x35]) /\
    List.length prefix = 4%nat /\
    wellFormed prefix /\
    le_value prefix = 4.
Proof.
  refine (proj1 encodeString_layout [0x20AC; 0x35] _).
  unfold fits. vm_compute. discriminate.
Defined.

(** ** The instruction encoders *)

Ltac layout :=
  unfold Buffer_concat, Buffer_from_array, ToUint8;
  cbn [bind List.concat map]; rewrite app_nil_r; reflexivity.

Lemma encodeCreateProduct_ok (productId metadataUri : jsstring) :
  fits productId -> fits metadataUri ->
  encodeCreateProduct productId metadataUri
  = Ok ([1] ++ (le32 (len (utf8 productId)) ++ utf8 productId)
            ++ (le32 (len (utf8 metadataUri)) ++ utf8 metadataUri)).
Proof.
  intros H1 H2. unfold encodeCreateProduct.
  rewrite (encodeString_ok H1), (encodeString_ok H2). layout.
Qed.

Lemma encodeUpdateProduct_ok (metadataUri : jsstring) :
  fits metadataUri ->
  encodeUpdateProduct metadataUri
  = Ok ([2] ++ (le32 (len (utf8 metadataUri)) ++ utf8 metadataUri)).
Proof.
  intros H2. unfold encodeUpdateProduct.
  rewrite (encodeString_ok H2). layout.
Qed.

Lemma encodeAddReview_ok (productId : jsstring) (score : Z) (comment : jsstring) :
  fits productId -> fits comment ->
  encodeAddReview productId score comment
  = Ok ([4] ++ (le32 (len (utf8 productId)) ++ utf8 productId)
            ++ [score mod 256]
            ++ (le32 (len (utf8 comment)) ++ utf8 comment)).
Proof.
  intros H1 H2. unfold encodeAddReview.
  rewrite (encodeString_ok H1), (encodeString_ok H2). layout.
Qed.

Lemma encodeUpdateReview_ok (score : Z) (comment : jsstring) :
  fits comment ->
  encodeUpdateReview score comment
  = Ok ([5] ++ [score mod 256] ++ (le32 (len (utf8 comment)) ++ utf8 comment)).
Proof.
  intros H2. unfold encodeUpdateReview.
  rewrite (encodeString_ok H2). layout.
Qed.

(** C3. Encoding AddReview for productId "p1", score 5 and comment "great"
    gives the bytes 4, 2 0 0 0, 'p' '1', 5, 5 0 0 0, 'g' 'r' 'e' 'a' 't':
    tag, length-prefixed productId, score byte, length-prefixed comment. *)
Theorem encodeAddReview_scenario :
  str "p1" = [112; 49] /\ str "great" = [103; 114; 101; 97; 116] /\
  encodeAddReview (str "p1") 5 (str "great")
  = Ok [4;  2; 0; 0; 0;  112; 49;  5;  5; 0; 0; 0;  103; 114; 101; 97; 116].
Proof. repeat split; reflexivity. Qed.

Example encodeAddReview_score_261 :
  encodeAddReview (str "p1") 261 (str "great")
  = encodeAddReview (str "p1") 5 (str "great").
Proof. reflexivity. Qed.

Example encodeUpdateReview_score_minus_1 :
  encodeUpdateReview (-1) (str "") = Ok [5; 255; 0; 0; 0; 0].
Proof. reflexivity. Qed.

(** ** The instruction builders *)

Section Builders.
Variables programId payer productAccount reviewAccount userAccount
          dailyClaimsAccount configAccount : PublicKey.
Variables productId metadataUri comment : jsstring.
Variable score : Z.

Lemma createCreateProduct_ok :
  fits productId -> fits metadataUri ->
  exists data,
    encodeCreateProduct productId metadataUri = Ok data /\
    createCreateProductInstruction programId payer productAccount configAccount
                                   productId metadataUri
    = Ok {| TransactionInstruction.keys :=
              [ meta payer true true; meta productAccount false true;
                meta configAccount false true;
                meta SystemProgram_programId false false;
                meta SYSVAR_CLOCK_PUBKEY false false ];
            TransactionInstruction.programId := programId;
            TransactionInstruction.data := data |}.
Proof.
  intros H1 H2. eexists. split; [apply encodeCreateProduct_ok; assumption|].
  unfold createCreateProductInstruction.
  now rewrite (encodeCreateProduct_ok H1 H2).
Qed.

Lemma createUpdateProduct_ok :
  fits metadataUri ->
  exists data,
    encodeUpdateProduct metadataUri = Ok data /\
    createUpdateProductInstruction programId payer productAccount metadataUri
    = Ok {| TransactionInstruction.keys :=
              [ meta payer true true; meta productAccount false true ];
            TransactionInstruction.programId := programId;
            TransactionInstruction.data := data |}.
Proof.
  intros H2. eexists. split; [apply encodeUpdateProduct_ok; assumption|].
  unfold createUpdateProductInstruction.
  now rewrite (encodeUpdateProduct_ok H2).
Qed.

Lemma createAddReview_ok :
  fits productId -> fits comment ->
  exists data,
    encodeAddReview productId score comment = Ok data /\
    createAddReviewInstruction programId payer productAccount reviewAccount
                               userAccount configAccount productId score comment
    = Ok {| TransactionInstruction.keys :=
              [ meta payer true true; meta productAccount false true;
                meta reviewAccount false true; meta userAccount false true;
                meta configAccount false true;
                meta SystemProgram_programId false false;
                meta SYSVAR_CLOCK_PUBKEY false false ];
            TransactionInstruction.programId := programId;
            TransactionInstruction.data := data |}.
Proof.
  intros H1 H2. eexists. split; [apply encodeAddReview_ok; assumption|].
  unfold createAddReviewInstruction.
  now rewrite (encodeAddReview_ok score H1 H2).
Qed.

Lemma createUpdateReview_ok :
  fits comment ->
  exists data,
    encodeUpdateReview score comment = Ok data /\
    createUpdateReviewInstruction programId payer reviewAccount score comment
    = Ok {| TransactionInstruction.keys :=
              [ meta payer true true; meta reviewAccount false true;
                meta SYSVAR_CLOCK_PUBKEY false false ];
            TransactionInstruction.programId := programId;
            TransactionInstruction.data := data |}.
Proof.
  intros H2. eexists. split; [apply encodeUpdateReview_ok; assumption|].
  unfold createUpdateReviewInstruction.
  now rewrite (encodeUpdateReview_ok score H2).
Qed.

(** C5. The data of every instruction starts with the operation's tag
    (0 Initialize, 1 CreateProduct, 2 UpdateProduct, 3 DeleteProduct,
    4 AddReview, 5 UpdateReview, 6 DailyClaim) whatever the arguments,
    and continues with the arguments in declared order, each string as
    its length prefix and UTF-8 bytes, the score as one byte, with no
    padding. *)
Theorem tag_then_arguments :
  fits productId -> fits metadataUri -> fits comment ->
  let field (s : jsstring) := le32 (len (utf8 s)) ++ utf8 s in
  TransactionInstruction.data
    (createInitializeInstruction programId payer configAccount) = [0]
  /\ builds (createCreateProductInstruction programId payer productAccount
               configAccount productId metadataUri)
            (1 :: field productId ++ field metadataUri)
  /\ builds (createUpdateProductInstruction programId payer productAccount
               metadataUri)
            (2 :: field metadataUri)
  /\ TransactionInstruction.data
       (createDeleteProductInstruction programId payer productAccount) = [3]
  /\ builds (createAddReviewInstruction programId payer productAccount
               reviewAccount userAccount configAccount productId score comment)
            (4 :: field productId ++ [score mod 256] ++ field comment)
  /\ builds (createUpdateReviewInstruction programId payer reviewAccount
               score comment)
            (5 :: [score mod 256] ++ field comment)
  /\ TransactionInstruction.data
       (createDailyClaimInstruction programId payer userAccount
          dailyClaimsAccount configAccount) = [6].
Proof.
  intros Hp Hm Hc field.
  destruct (createCreateProduct_ok Hp Hm) as (d1 & E1 & B1).
  destruct (createUpdateProduct_ok Hm) as (d2 & E2 & B2).
  destruct (createAddReview_ok Hp Hc) as (d4 & E4 & B4).
  destruct (createUpdateReview_ok Hc) as (d5 & E5 & B5).
  rewrite encodeCreateProduct_ok in E1 by assumption.
  rewrite encodeUpdateProduct_ok in E2 by assumption.
  rewrite encodeAddReview_ok in E4 by assumption.
  rewrite encodeUpdateReview_ok in E5 by assumption.
  injection E1 as <-. injection E2 as <-. injection E4 as <-. injection E5 as <-.
  unfold builds.
  repeat split; try reflexivity; eexists; (split; [eassumption|]); reflexivity.
Qed.

(** C10. In each of the seven instruction builders the account list
    starts with the payer, with isSigner and isWritable both true, and
    every other account of the list has isSigner false, whatever the
    arguments. *)
Theorem payer_signs_first :
  fits productId -> fits metadataUri -> fits comment ->
  payerFirst payer (TransactionInstruction.keys
    (createInitializeInstruction programId payer configAccount))
  /\ buildsFor (createCreateProductInstruction programId payer productAccount
                  configAccount productId metadataUri) payer
  /\ buildsFor (createUpdateProductInstruction programId payer productAccount
                  metadataUri) payer
  /\ payerFirst payer (TransactionInstruction.keys
       (createDeleteProductInstruction programId payer productAccount))
  /\ buildsFor (createAddReviewInstruction programId payer productAccount
                  reviewAccount userAccount configAccount productId score comment)
               payer
  /\ buildsFor (createUpdateReviewInstruction programId payer reviewAccount
                  score comment) payer
  /\ payerFirst payer (TransactionInstruction.keys
       (createDailyClaimInstruction programId payer userAccount
          dailyClaimsAccount configAccount)).
Proof.
  intros Hp Hm Hc.
  destruct (createCreateProduct_ok Hp Hm) as (d1 & _ & B1).
  destruct (createUpdateProduct_ok Hm) as (d2 & _ & B2).
  destruct (createAddReview_ok Hp Hc) as (d4 & _ & B4).
  destruct (createUpdateReview_ok Hc) as (d5 & _ & B5).
  unfold buildsFor.
  repeat match goal with |- _ /\ _ => split end;
    try (eexists; split; [eassumption|]);
    cbn; repeat split; repeat constructor.
Qed.

(** C8. For every integer score, the AddReview and UpdateReview encoders
    return a payload (the score is never rejected) whose score byte,
    right after the productId field for AddReview and right after the
    tag for UpdateReview, is score modulo 256. *)
Theorem score_byte_wraps :
  fits productId -> fits comment ->
  (exists payload,
      encodeAddReview productId score comment = Ok payload /\
      nth_error payload (1 + (4 + List.length (utf8 productId)))
      = Some (score mod 256))
  /\ (exists payload,
      encodeUpdateReview score comment = Ok payload /\
      nth_error payload 1 = Some (score mod 256)).
Proof.
  intros Hp Hc. split; eexists.
  - split; [apply encodeAddReview_ok; assumption|].
    cbn [app nth_error Nat.add le32].
    rewrite nth_error_app2 by (cbn; lia).
    replace (_ - _)%nat with 0%nat by (cbn; lia). reflexivity.
  - split; [apply encodeUpdateReview_ok; assumption|]. reflexivity.
Qed.
End Builders.

Ltac fits_by_computation := unfold fits; vm_compute; discriminate.

Lemma tag_then_arguments_witness :
  builds (createAddReviewInstruction PROGRAM_ID (exampleKey 1) (exampleKey 2)
            (exampleKey 3) (exampleKey 4) (exampleKey 6) (str "p1") 5 (str "great"))
         [4;  2; 0; 0; 0;  112; 49;  5;  5; 0; 0; 0;  103; 114; 101; 97; 116]
  /\ builds (createCreateProductInstruction PROGRAM_ID (exampleKey 1) (exampleKey 2)
               (exampleKey 6) (str "p1") (str "ipfs"))
            [1;  2; 0; 0; 0;  112; 49;  4; 0; 0; 0;  105; 112; 102; 115].
Proof.
  pose proof (@tag_then_arguments PROGRAM_ID (exampleKey 1) (exampleKey 2)
                (exampleKey 3) (exampleKey 4) (exampleKey 5) (exampleKey 6)
                (str "p1") (str "ipfs") (str "great") 5) as H.
  split; apply H; fits_by_computation.
Defined.

Lemma payer_signs_first_witness :
  buildsFor (createAddReviewInstruction PROGRAM_ID (exampleKey 1) (exampleKey 2)
               (exampleKey 3) (exampleKey 4) (exampleKey 6) (str "p1") 5 (str "great"))
            (exampleKey 1).
Proof.
  apply (@payer_signs_first PROGRAM_ID (exampleKey 1) (exampleKey 2)
           (exampleKey 3) (exampleKey 4) (exampleKey 5) (exampleKey 6)
           (str "p1") (str "ipfs") (str "great") 5); fits_by_computation.
Defined.

Lemma score_byte_wraps_witness :
  exists payload,
    encodeAddReview (str "p1") 261 (str "great") = Ok payload /\
    nth_error payload 7 = Some 5.
Proof.
  apply (@score_byte_wraps (str "p1") (str "great") 261); fits_by_computation.
Defined.

(** ** Program addresses *)

Section AddressFacts.
Context {platform : Platform}.

(** The search function ends the way the step relation says. *)
Lemma searchBump_derives (seeds : list bytes) (programId : PublicKey) (bump : nat) :
  derives seeds programId bump (searchBump seeds programId bump).
Proof.
  induction bump as [|bump IH]; cbn [searchBump];
    destruct (isOnCurve (sha256 (addressPreimage seeds programId _))) eqn:Hcurve.
  - now apply derives_exhausted.
  - now apply derives_accept.
  - now apply derives_lower.
  - now apply derives_accept.
Qed.

(** Every run of the search ends with the function's result. *)
Lemma derives_searchBump (seeds : list bytes) (programId : PublicKey)
      (bump : nat) (r : Result (PublicKey * Z)) :
  derives seeds programId bump r -> r = searchBump seeds programId bump.
Proof.
  induction 1 as [bump Hoff | bump r Hon _ IH | Hon].
  - destruct bump; cbn [searchBump]; now rewrite Hoff.
  - cbn [searchBump]. now rewrite Hon.
  - cbn [searchBump]. now rewrite Hon.
Qed.

(** C7. Address derivation is deterministic: two runs of the bump search
    from the same program identifier and the same seed list end with the
    same (address, bump) pair (or both fail), which is the one
    [findProgramAddressSync] returns. *)
Theorem derivation_deterministic
        (seeds : list bytes) (programId : PublicKey)
        (first second : Result (PublicKey * Z)) :
  derives seeds programId 255 first ->
  derives seeds programId 255 second ->
  first = second /\ findProgramAddressSync seeds programId = first.
Proof.
  intros H1 H2.
  apply derives_searchBump in H1. apply derives_searchBump in H2.
  unfold findProgramAddressSync. split; congruence.
Qed.

(** C6. Each record kind's address is searched from its fixed seed list,
    the namespace literal as UTF-8 bytes first: config; product,
    productId; review, productId, reviewer; user, user address;
    daily_claims, user address, date. *)
Theorem pda_seeds (programId : PublicKey) (productId : jsstring)
        (reviewer user : PublicKey) (date : jsstring) :
  getConfigPDA programId
  = findProgramAddressSync [utf8 (str "config")] programId
  /\ getProductPDA programId productId
     = findProgramAddressSync [utf8 (str "product"); utf8 productId] programId
  /\ getReviewPDA programId productId reviewer
     = findProgramAddressSync
         [utf8 (str "review"); utf8 productId; toBuffer reviewer] programId
  /\ getUserPDA programId user
     = findProgramAddressSync [utf8 (str "user"); toBuffer user] programId
  /\ getDailyClaimsPDA programId user date
     = findProgramAddressSync
         [utf8 (str "daily_claims"); toBuffer user; utf8 date] programId
  /\ utf8 (str "config") = [99; 111; 110; 102; 105; 103]
  /\ utf8 (str "product") = [112; 114; 111; 100; 117; 99; 116]
  /\ utf8 (str "review") = [114; 101; 118; 105; 101; 119]
  /\ utf8 (str "user") = [117; 115; 101; 114]
  /\ utf8 (str "daily_claims")
     = [100; 97; 105; 108; 121; 95; 99; 108; 97; 105; 109; 115].
Proof. repeat split. Qed.
End AddressFacts.

(** On the example platform the search for a daily-claims address goes
    down three bumps before it accepts. *)
Lemma derivation_deterministic_witness :
  exists address,
    findProgramAddressSync (platform := examplePlatform)
      [utf8 (str "daily_claims"); toBuffer SYSVAR_CLOCK_PUBKEY; utf8 (str "2025-11-03")]
      PROGRAM_ID
    = Ok (address, 252).
Proof.
  eexists.
  refine (proj2 (@derivation_deterministic examplePlatform
                   [utf8 (str "daily_claims"); toBuffer SYSVAR_CLOCK_PUBKEY;
                    utf8 (str "2025-11-03")]
                   PROGRAM_ID _ _ _ _));
    repeat (apply derives_lower; [vm_compute; reflexivity|]);
    apply (derives_accept (platform := examplePlatform) _ _ 252);
    vm_compute; reflexivity.
Defined.

(** ** The date helper and the daily-claims lookup *)

Lemma digit_range (n : Z) : 48 <= 48 + n mod 10 <= 57.
Proof. pose proof (Z.mod_pos_bound n 10). lia. Qed.

Lemma digit_isDigit (n : Z) : isDigit (48 + n mod 10) = true.
Proof.
  pose proof (digit_range n). unfold isDigit.
  apply andb_true_iff. split; apply Z.leb_le; lia.
Qed.

Lemma digits_not_T (width : nat) (n : Z) : Forall (fun c => c <> 84) (digits width n).
Proof.
  revert n. induction width as [|w IH]; intros n; cbn [digits].
  - constructor.
  - apply Forall_app. split; [apply IH|].
    constructor; [|constructor]. pose proof (digit_range n). lia.
Qed.

Ltac no_T :=
  repeat match goal with
         | |- Forall _ [] => constructor
         | |- Forall _ (_ :: _) => constructor; [discriminate|]
         | |- Forall _ (digits _ _) => apply digits_not_T
         | |- Forall _ (_ ++ _) => apply Forall_app; split
         end.

Lemma isoYear_not_T (y : Z) : Forall (fun c => c <> 84) (isoYear y).
Proof.
  unfold isoYear. change (str "-") with [45]. change (str "+") with [43].
  destruct ((0 <=? y) && (y <=? 9999)); [|destruct (y <? 0)]; no_T.
Qed.

(** The first piece of a split is what stands before the first separator. *)
Lemma split_head (sep : Z) (prefix rest : jsstring) :
  Forall (fun c => c <> sep) prefix ->
  nth 0 (split sep (prefix ++ sep :: rest)) [] = prefix.
Proof.
  induction 1 as [|c prefix Hc _ IH]; cbn [app split].
  - now rewrite Z.eqb_refl.
  - apply Z.eqb_neq in Hc. rewrite Hc.
    destruct (split sep (prefix ++ sep :: rest)) as [|w ws]; cbn in IH |- *;
      now subst.
Qed.

(** The date string is the date part of the ISO string. *)
Lemma getCurrentDateString_date (now : Z) :
  getCurrentDateString now
  = isoYear (utcYear now)
    ++ str "-" ++ digits 2 (snd (fst (civilFromDays (now / msPerDay))))
    ++ str "-" ++ digits 2 (snd (civilFromDays (now / msPerDay))).
Proof.
  unfold getCurrentDateString, toISOString, utcYear.
  destruct (civilFromDays (now / msPerDay)) as [[y m] d]. cbn [fst snd].
  change (str "-") with [45]. change (str "T") with [84].
  rewrite !app_assoc. rewrite <- !app_assoc.
  change ([84] ++ ?x) with (84 :: x).
  rewrite !app_assoc.
  apply split_head.
  pose proof (isoYear_not_T y). no_T; assumption.
Qed.

Lemma getCurrentDateString_truthy (now : Z) : getCurrentDateString now <> [].
Proof.
  rewrite getCurrentDateString_date. change (str "-") with [45].
  intros Hnil. apply app_eq_nil in Hnil. destruct Hnil as [_ Hnil]. discriminate.
Qed.

Lemma getCurrentDateString_form (now : Z) :
  0 <= utcYear now <= 9999 -> isDateForm (getCurrentDateString now) = true.
Proof.
  intros Hy. rewrite getCurrentDateString_date. unfold isoYear.
  replace ((0 <=? utcYear now) && (utcYear now <=? 9999)) with true
    by (symmetry; apply andb_true_iff; split; apply Z.leb_le; lia).
  change (str "-") with [45]. cbn [digits app].
  unfold isDateForm. cbn [forallb].
  rewrite !digit_isDigit. reflexivity.
Qed.

Section DailyClaimsFacts.
Context {platform : Platform}.

Lemma getDailyClaims_requests (this : KalloViewClient) (userAddress : PublicKey)
      (date : option jsstring) (now : Z) (address : PublicKey) (bump : Z) :
  getDailyClaimsPDA (programId this) userAddress (dateOrToday date now)
  = Ok (address, bump) ->
  requests (getDailyClaims this userAddress date now) = [address].
Proof.
  intros Hpda. unfold getDailyClaims. rewrite Hpda.
  destruct (getAccountInfo (connection this) address) as [[info|]|error];
    [|reflexivity|reflexivity].
  destruct (parseDailyClaimsData (AccountInfo.data info)); reflexivity.
Qed.

(** C9. In the daily-claims lookup the empty string as date behaves as
    no date at all: both give the outcome of the lookup for today's
    date, both ask the connection for the address derived with it, and
    that date is the UTC date of the clock, of the form YYYY-MM-DD
    (for a clock in the years 0000 to 9999). *)
Theorem empty_date_means_today
        (this : KalloViewClient) (userAddress : PublicKey) (now : Z) :
  let today := getCurrentDateString now in
  getDailyClaims this userAddress (Some (str "")) now
  = getDailyClaims this userAddress None now
  /\ getDailyClaims this userAddress None now
     = getDailyClaims this userAddress (Some today) now
  /\ (forall address bump,
         getDailyClaimsPDA (programId this) userAddress today = Ok (address, bump) ->
         requests (getDailyClaims this userAddress (Some (str "")) now) = [address]
         /\ requests (getDailyClaims this userAddress None now) = [address])
  /\ today
     = isoYear (utcYear now)
       ++ str "-" ++ digits 2 (snd (fst (civilFromDays (now / msPerDay))))
       ++ str "-" ++ digits 2 (snd (civilFromDays (now / msPerDay)))
  /\ (0 <= utcYear now <= 9999 -> isDateForm today = true).
Proof.
  intros today.
  assert (Hempty : dateOrToday (Some (str "")) now = dateOrToday None now)
    by (change (str "") with (@nil Z); reflexivity).
  split; [unfold getDailyClaims; now rewrite Hempty|]. split.
  - unfold getDailyClaims, dateOrToday. fold today.
    pose proof (getCurrentDateString_truthy now) as Hne. fold today in Hne.
    clearbody today. destruct today as [|c rest]; [contradiction|reflexivity].
  - split; [|split; [apply getCurrentDateString_date|apply getCurrentDateString_form]].
    intros address bump Hpda.
    split; now apply getDailyClaims_requests with (bump := bump).
Qed.
End DailyClaimsFacts.

Lemma empty_date_means_today_witness :
  getCurrentDateString 1762158776123 = str "2025-11-03"
  /\ isDateForm (getCurrentDateString 1762158776123) = true.
Proof.
  pose proof (@empty_date_means_today examplePlatform
                {| connection := offline; programId := PROGRAM_ID |}
                SYSVAR_CLOCK_PUBKEY 1762158776123) as H.
  cbv zeta in H. destruct H as (_ & _ & _ & _ & Hform).
  split; [vm_compute; reflexivity|].
  apply Hform. vm_compute. split; discriminate.
Defined.

(** ** The account lookups *)

Ltac lookup_cases :=
  unfold collapsesToNull, tryLookup;
  match goal with
  | |- context [bind ?derived _] => destruct derived as [[pda bump]|error]
  end; cbn [bind fst]; [|split; reflexivity];
  match goal with
  | |- context [getAccountInfo ?c ?a] =>
    destruct (getAccountInfo c a) as [[info|]|error]
  end; cbn [bind]; [|split; reflexivity|split; reflexivity];
  match goal with
  | |- context [bind ?parsed _] => destruct parsed as [record|error]
  end; cbn [bind]; split; reflexivity.

Section LookupFacts.
Context {platform : Platform}.

Lemma collapsesToNull_never_rejects {A : Type} (tried : Result (option A))
      (message : string) (outcome : Outcome (option A)) :
  collapsesToNull tried message outcome ->
  forall error, settled outcome <> Rejected error.
Proof.
  unfold collapsesToNull. intros H error.
  destruct tried; destruct H as [-> _]; discriminate.
Qed.

Lemma collapsesToNull_swallowsErrors {A : Type} (derived : Result (PublicKey * Z))
      (conn : Connection) (parse : Buffer -> Result A) (message : string)
      (outcome : Outcome (option A)) :
  collapsesToNull (tryLookup derived conn parse) message outcome ->
  swallowsErrors derived conn parse message outcome.
Proof.
  intros Hcollapse.
  assert (Hlog : forall error, tryLookup derived conn parse = Throw error ->
                               logged outcome = [(message, error)])
    by (intros error Hthrow; unfold collapsesToNull in Hcollapse;
        rewrite Hthrow in Hcollapse; apply Hcollapse).
  unfold swallowsErrors. unfold collapsesToNull, tryLookup in Hcollapse.
  destruct derived as [[address bump]|error]; cbn [bind fst] in Hcollapse.
  - destruct (getAccountInfo conn address) as [[info|]|error] eqn:Hfetch;
      cbn [bind] in Hcollapse.
    + destruct (parse (AccountInfo.data info)) as [record|error] eqn:Hparse;
        cbn [bind] in Hcollapse; destruct Hcollapse as [Hs _]; rewrite Hs.
      * (* fetched and parsed *)
        split; [discriminate|]. split; [|split; [|exact Hlog]].
        -- split; [discriminate|].
           intros [(e & Hd) | (a & b & Hd & [(e & Hf) | [Hf | (i & e & Hf & Hp)]])];
             congruence.
        -- intros r. split.
           ++ intros [= <-]. exists address, bump, info. auto.
           ++ intros (a & b & i & Hd & Hf & Hp). congruence.
      * (* the parse threw *)
        split; [discriminate|]. split; [|split; [|exact Hlog]].
        -- split; [intros _|reflexivity].
           right. exists address, bump. split; [reflexivity|].
           right. right. exists info, error. auto.
        -- intros r. split; [discriminate|].
           intros (a & b & i & Hd & Hf & Hp). congruence.
    + (* the account is missing *)
      destruct Hcollapse as [Hs _]. rewrite Hs.
      split; [discriminate|]. split; [|split; [|exact Hlog]].
      * split; [intros _|reflexivity].
        right. exists address, bump. auto.
      * intros r. split; [discriminate|].
        intros (a & b & i & Hd & Hf & Hp). congruence.
    + (* the fetch threw *)
      destruct Hcollapse as [Hs _]. rewrite Hs.
      split; [discriminate|]. split; [|split; [|exact Hlog]].
      * split; [intros _|reflexivity].
        right. exists address, bump. split; [reflexivity|]. left. eauto.
      * intros r. split; [discriminate|].
        intros (a & b & i & Hd & Hf & Hp). congruence.
  - (* the derivation threw *)
    destruct Hcollapse as [Hs _]. rewrite Hs.
    split; [discriminate|]. split; [|split; [|exact Hlog]].
    + split; [intros _|reflexivity]. left. eauto.
    + intros r. split; [discriminate|].
      intros (a & b & i & Hd & Hf & Hp). discriminate Hd.
Qed.

Lemma lookups_collapse
      (this : KalloViewClient) (productId : jsstring)
      (reviewer userAddress : PublicKey) (date : option jsstring) (now : Z) :
  collapsesToNull
    (tryLookup (getConfigPDA (programId this)) (connection this) parseConfigData)
    "Error fetching config:" (getConfig this)
  /\ collapsesToNull
       (tryLookup (getProductPDA (programId this) productId) (connection this)
                  parseProductData)
       "Error fetching product:" (getProduct this productId)
  /\ collapsesToNull
       (tryLookup (getReviewPDA (programId this) productId reviewer)
                  (connection this) parseReviewData)
       "Error fetching review:" (getReview this productId reviewer)
  /\ collapsesToNull
       (tryLookup (getUserPDA (programId this) userAddress) (connection this)
                  parseUserData)
       "Error fetching user:" (getUser this userAddress)
  /\ collapsesToNull
       (tryLookup (getDailyClaimsPDA (programId this) userAddress
                                     (dateOrToday date now))
                  (connection this) parseDailyClaimsData)
       "Error fetching daily claims:" (getDailyClaims this userAddress date now).
Proof.
  repeat split.
  - unfold getConfig. lookup_cases.
  - unfold getProduct. lookup_cases.
  - unfold getReview. lookup_cases.
  - unfold getUser. lookup_cases.
  - unfold getDailyClaims. cbv zeta. lookup_cases.
Qed.

(** C2, as the code has it. Each of the five lookups resolves and never
    rejects: to [null] when the account is missing or when address
    derivation, the fetch or the parse throws (the error is then written
    to [console.error] and goes no further), and to the parsed record
    when all three succeed. *)
Theorem lookups_swallow_errors
        (this : KalloViewClient) (productId : jsstring)
        (reviewer userAddress : PublicKey) (date : option jsstring) (now : Z) :
  swallowsErrors (getConfigPDA (programId this)) (connection this)
                 parseConfigData "Error fetching config:" (getConfig this)
  /\ swallowsErrors (getProductPDA (programId this) productId) (connection this)
                    parseProductData "Error fetching product:"
                    (getProduct this productId)
  /\ swallowsErrors (getReviewPDA (programId this) productId reviewer)
                    (connection this) parseReviewData "Error fetching review:"
                    (getReview this productId reviewer)
  /\ swallowsErrors (getUserPDA (programId this) userAddress) (connection this)
                    parseUserData "Error fetching user:" (getUser this userAddress)
  /\ swallowsErrors (getDailyClaimsPDA (programId this) userAddress
                                       (dateOrToday date now))
                    (connection this) parseDailyClaimsData
                    "Error fetching daily claims:"
                    (getDailyClaims this userAddress date now).
Proof.
  destruct (lookups_collapse this productId reviewer userAddress date now)
    as (Hconfig & Hproduct & Hreview & Huser & Hclaims).
  split; [|split; [|split; [|split]]];
    apply collapsesToNull_swallowsErrors; assumption.
Qed.
End LookupFacts.

(** Against C2 as the specification states it: with the connection down,
    and with a three-byte config blob, [getConfig] resolves to [null]
    where the specification asks for an error. *)
Lemma lookup_errors_are_not_surfaced :
  ~ configNullOnlyWhenAbsent examplePlatform
      {| connection := offline; programId := PROGRAM_ID |}
  /\ ~ configNullOnlyWhenAbsent examplePlatform
         {| connection := serving (Buffer_of [1; 2; 3]); programId := PROGRAM_ID |}.
Proof.
  split; intros Hclaim.
  - destruct (Hclaim _ 255 ltac:(vm_compute; reflexivity)) as (_ & Hfetch & _).
    specialize (Hfetch TransportError eq_refl).
    vm_compute in Hfetch. discriminate Hfetch.
  - destruct (Hclaim _ 255 ltac:(vm_compute; reflexivity)) as (_ & _ & Hparse).
    assert (Hlen : 3 <> 0) by discriminate.
    specialize (Hparse {| AccountInfo.data := Buffer_of [1; 2; 3] |} RangeError
                       eq_refl Hlen eq_refl).
    vm_compute in Hparse. discriminate Hparse.
Qed.

(** ** The record parsers *)

Lemma bind_ok {A B : Type} (r : Result A) (k : A -> Result B) (y : B) :
  bind r k = Ok y -> exists x, r = Ok x /\ k x = Ok y.
Proof. destruct r as [x|e]; cbn; [eauto|discriminate]. Qed.

Ltac bind_inv H :=
  repeat (let x := fresh "v" in
          let E := fresh "E" in
          apply bind_ok in H; destruct H as (x & E & H); cbv beta in H).

Lemma viewBytes_ok (view : DataView) (off n : Z) (x : bytes) :
  viewBytes view off n = Ok x ->
  0 <= off /\ off + n <= len view
  /\ x = firstn (Z.to_nat n) (skipn (Z.to_nat off) view).
Proof.
  unfold viewBytes.
  destruct (off <? 0) eqn:H1; [discriminate|].
  destruct (len view <? off + n) eqn:H2; [discriminate|]. cbn [orb].
  intros [= <-]. apply Z.ltb_ge in H1, H2. auto.
Qed.

Lemma le_value_nonneg (b : bytes) : wellFormed b -> 0 <= le_value b.
Proof.
  induction 1 as [|x b Hx _ IH]; cbn [le_value]; lia.
Qed.

Lemma wellFormed_skipn (off : nat) (b : bytes) :
  wellFormed b -> wellFormed (skipn off b).
Proof.
  revert b. induction off as [|off IH]; intros b Hb; [exact Hb|].
  destruct Hb as [|x b Hx Hb]; cbn [skipn]; [constructor|now apply IH].
Qed.

Lemma wellFormed_firstn (n : nat) (b : bytes) :
  wellFormed b -> wellFormed (firstn n b).
Proof.
  revert b. induction n as [|n IH]; intros b Hb; [constructor|].
  destruct Hb as [|x b Hx Hb]; cbn [firstn]; constructor; [exact Hx|now apply IH].
Qed.

Lemma wellFormed_window (b : bytes) (off n : nat) :
  wellFormed b -> wellFormed (firstn n (skipn off b)).
Proof. intros Hb. now apply wellFormed_firstn, wellFormed_skipn. Qed.

Lemma getUint8_ok (view : DataView) (off v : Z) :
  getUint8 view off = Ok v -> 0 <= off /\ off + 1 <= len view.
Proof.
  unfold getUint8. intros H. bind_inv H.
  apply viewBytes_ok in E. tauto.
Qed.

Lemma getUint32_ok (view : DataView) (off v : Z) :
  getUint32 view off = Ok v -> 0 <= off /\ off + 4 <= len view.
Proof.
  unfold getUint32. intros H. bind_inv H.
  apply viewBytes_ok in E. tauto.
Qed.

Lemma getUint32_nonneg (view : DataView) (off v : Z) :
  wellFormed view -> getUint32 view off = Ok v -> 0 <= v.
Proof.
  unfold getUint32. intros Hwf H. bind_inv H.
  apply viewBytes_ok in E. destruct E as (_ & _ & ->).
  injection H as <-. apply le_value_nonneg.
  exact (wellFormed_window (Z.to_nat off) (Z.to_nat 4) Hwf).
Qed.

Lemma getBigUint64_ok (view : DataView) (off v : Z) :
  getBigUint64 view off = Ok v -> 0 <= off /\ off + 8 <= len view.
Proof.
  unfold getBigUint64. intros H. bind_inv H.
  apply viewBytes_ok in E. tauto.
Qed.

Lemma getBigInt64_ok (view : DataView) (off v : Z) :
  getBigInt64 view off = Ok v -> 0 <= off /\ off + 8 <= len view.
Proof.
  unfold getBigInt64. intros H. bind_inv H.
  apply viewBytes_ok in E. tauto.
Qed.

Ltac read_bounds :=
  repeat match goal with
         | H : getUint8 _ _ = Ok _ |- _ => apply getUint8_ok in H
         | H : getBigUint64 _ _ = Ok _ |- _ => apply getBigUint64_ok in H
         | H : getBigInt64 _ _ = Ok _ |- _ => apply getBigInt64_ok in H
         | H : getUint32 ?view _ = Ok _, W : wellFormed ?view |- _ =>
           pose proof (@getUint32_nonneg _ _ _ W H); apply getUint32_ok in H
         | H : getUint32 _ _ = Ok _ |- _ => apply getUint32_ok in H
         end.

Section ParserFacts.
Context {platform : Platform}.

(** C1, at the inputs where the code departs from it. The data view is
    built on the whole array buffer while the slices are taken in the
    buffer's own window.  A two-byte buffer inside a larger array buffer
    parses as a config record read from the array buffer's first 66
    bytes, and a product blob whose productId prefix overruns its seven
    bytes parses with the fields after it read past its end; neither
    fails. *)
Theorem parsers_read_past_the_blob :
  byteLength pooledShortBlob = 2
  /\ parseConfigData pooledShortBlob
     = Ok {| Config.isInitialized := false;
             Config.authority := {| bn := 0 |};
             Config.totalProducts := 0;
             Config.totalReviews := 0;
             Config.totalUsers := 0;
             Config.totalTransactions := 0;
             Config.version := 0 |}
  /\ contents pooledOverrunBlob = [1; 5; 0; 0; 0; 97; 98]
  /\ parseProductData pooledOverrunBlob
     = Ok {| Product.productId := TextDecoder_decode [97; 98];
             Product.owner := {| bn := 0 |};
             Product.totalScores := 0;
             Product.totalReviews := 0;
             Product.metadataUri := TextDecoder_decode [];
             Product.status := false;
             Product.createdAt := 0 |}.
Proof. repeat split. Qed.

(** On a buffer that owns its array buffer, a config record that parses
    has at least its 66 bytes: a shorter blob is a failure. *)
Theorem parseConfigData_in_bounds (b : bytes) (config : Config.t) :
  parseConfigData (Buffer_of b) = Ok config -> 66 <= len b.
Proof.
  unfold parseConfigData, new_DataView. cbn [buffer Buffer_of].
  intros H. bind_inv H. read_bounds. lia.
Qed.

(** On a buffer that owns its array buffer, a product record that parses
    holds its 58 fixed bytes and both strings as their prefixes announce
    them: a shorter blob, or a prefix that overruns it, is a failure. *)
Theorem parseProductData_in_bounds (b : bytes) (product : Product.t) :
  wellFormed b ->
  parseProductData (Buffer_of b) = Ok product ->
  exists productIdLen metadataUriLen,
    getUint32 b 1 = Ok productIdLen
    /\ getUint32 b (45 + productIdLen) = Ok metadataUriLen
    /\ 0 <= productIdLen /\ 0 <= metadataUriLen
    /\ 58 + productIdLen + metadataUriLen <= len b.
Proof.
  unfold parseProductData, new_DataView. cbn [buffer Buffer_of].
  intros Hwf H. cbv zeta in H.
  apply bind_ok in H. destruct H as (productIdLen & Eid & H). cbv beta in H.
  apply bind_ok in H. destruct H as (owner & Eowner & H). cbv beta in H.
  apply bind_ok in H. destruct H as (totalScores & Escores & H). cbv beta in H.
  apply bind_ok in H. destruct H as (totalReviews & Ereviews & H). cbv beta in H.
  apply bind_ok in H. destruct H as (metadataUriLen & Euri & H). cbv beta in H.
  bind_inv H.
  exists productIdLen, metadataUriLen.
  replace (45 + productIdLen) with (1 + 4 + productIdLen + 32 + 4 + 4) by lia.
  split; [assumption|]. split; [assumption|].
  read_bounds. lia.
Qed.

(** The same for a review record: 58 fixed bytes and both strings. *)
Theorem parseReviewData_in_bounds (b : bytes) (review : Review.t) :
  wellFormed b ->
  parseReviewData (Buffer_of b) = Ok review ->
  exists productIdLen commentLen,
    getUint32 b 1 = Ok productIdLen
    /\ getUint32 b (38 + productIdLen) = Ok commentLen
    /\ 0 <= productIdLen /\ 0 <= commentLen
    /\ 58 + productIdLen + commentLen <= len b.
Proof.
  unfold parseReviewData, new_DataView. cbn [buffer Buffer_of].
  intros Hwf H. cbv zeta in H.
  apply bind_ok in H. destruct H as (productIdLen & Eid & H). cbv beta in H.
  apply bind_ok in H. destruct H as (reviewer & Ereviewer & H). cbv beta in H.
  apply bind_ok in H. destruct H as (score & Escore & H). cbv beta in H.
  apply bind_ok in H. destruct H as (commentLen & Ecomment & H). cbv beta in H.
  bind_inv H.
  exists productIdLen, commentLen.
  replace (38 + productIdLen) with (1 + 4 + productIdLen + 32 + 1) by lia.
  split; [assumption|]. split; [assumption|].
  read_bounds. lia.
Qed.

(** The same for a user record: 61 bytes. *)
Theorem parseUserData_in_bounds (b : bytes) (user : User.t) :
  parseUserData (Buffer_of b) = Ok user -> 61 <= len b.
Proof.
  unfold parseUserData, new_DataView. cbn [buffer Buffer_of].
  intros H. cbv zeta in H. bind_inv H. read_bounds. lia.
Qed.

(** The same for a daily-claims record: 38 fixed bytes and the date. *)
Theorem parseDailyClaimsData_in_bounds (b : bytes) (claims : DailyClaims.t) :
  wellFormed b ->
  parseDailyClaimsData (Buffer_of b) = Ok claims ->
  exists dateLen,
    getUint32 b 33 = Ok dateLen /\ 0 <= dateLen /\ 38 + dateLen <= len b.
Proof.
  unfold parseDailyClaimsData, new_DataView. cbn [buffer Buffer_of].
  intros Hwf H. cbv zeta in H.
  apply bind_ok in H. destruct H as (user & Euser & H). cbv beta in H.
  apply bind_ok in H. destruct H as (dateLen & Edate & H). cbv beta in H.
  bind_inv H.
  exists dateLen. split; [assumption|].
  read_bounds. lia.
Qed.
End ParserFacts.

Ltac bytes_by_computation := apply wellFormed_check; vm_compute; reflexivity.

Lemma parseConfigData_in_bounds_witness : 66 <= len (repeat 1 66).
Proof.
  refine (@parseConfigData_in_bounds (repeat 1 66) _ _).
  vm_compute. reflexivity.
Defined.

Lemma parseProductData_in_bounds_witness :
  exists productIdLen metadataUriLen,
    getUint32 productBlob 1 = Ok productIdLen
    /\ getUint32 productBlob (45 + productIdLen) = Ok metadataUriLen
    /\ 0 <= productIdLen /\ 0 <= metadataUriLen
    /\ 58 + productIdLen + metadataUriLen <= len productBlob.
Proof.
  refine (@parseProductData_in_bounds examplePlatform productBlob _ _ _).
  - bytes_by_computation.
  - vm_compute. reflexivity.
Defined.

Lemma parseReviewData_in_bounds_witness :
  exists productIdLen commentLen,
    getUint32 reviewBlob 1 = Ok productIdLen
    /\ getUint32 reviewBlob (38 + productIdLen) = Ok commentLen
    /\ 0 <= productIdLen /\ 0 <= commentLen
    /\ 58 + productIdLen + commentLen <= len reviewBlob.
Proof.
  refine (@parseReviewData_in_bounds examplePlatform reviewBlob _ _ _).
  - bytes_by_computation.
  - vm_compute. reflexivity.
Defined.

Lemma parseUserData_in_bounds_witness : 61 <= len userBlob.
Proof.
  refine (@parseUserData_in_bounds userBlob _ _).
  vm_compute. reflexivity.
Defined.

Lemma parseDailyClaimsData_in_bounds_witness :
  exists dateLen,
    getUint32 dailyClaimsBlob 33 = Ok dateLen
    /\ 0 <= dateLen /\ 38 + dateLen <= len dailyClaimsBlob.
Proof.
  refine (@parseDailyClaimsData_in_bounds examplePlatform dailyClaimsBlob _ _ _).
  - bytes_by_computation.
  - vm_compute. reflexivity.
Defined.

(* ================================================================== *)
(** * Further properties *)
(* ================================================================== *)

(** ** Sizes of UTF-8 text and of encoded strings *)

Lemma utf8_codepoint_length (cp : Z) :
  (1 <= List.length (utf8_codepoint cp) <= 4)%nat.
Proof.
  unfold utf8_codepoint.
  destruct (cp <? 0x80); [cbn; lia|].
  destruct (cp <? 0x800); [cbn; lia|].
  destruct (cp <? 0x10000); cbn; lia.
Qed.

Lemma utf8_pair_length (c d : Z) :
  isHighSurrogate c = true -> isLowSurrogate d = true ->
  List.length (utf8_codepoint (0x10000 + (c - 0xD800) * 0x400 + (d - 0xDC00))) = 4%nat.
Proof.
  unfold isHighSurrogate, isLowSurrogate, utf8_codepoint.
  intros Hc Hd.
  apply andb_true_iff in Hc, Hd. destruct Hc as [Hc1 Hc2], Hd as [Hd1 Hd2].
  apply Z.leb_le in Hc1, Hc2, Hd1, Hd2.
  destruct (_ <? 0x80) eqn:H1; [apply Z.ltb_lt in H1; lia|].
  destruct (_ <? 0x800) eqn:H2; [apply Z.ltb_lt in H2; lia|].
  destruct (_ <? 0x10000) eqn:H3; [apply Z.ltb_lt in H3; lia|].
  reflexivity.
Qed.

(** The UTF-8 text has at least one byte and at most four bytes for each
    code unit; stated for a string and for the string with one more unit
    in front, which is how [utf8] recurses. *)
Lemma utf8_length_step (s : jsstring) :
  (List.length s <= List.length (utf8 s) <= 4 * List.length s)%nat
  /\ forall c,
      (S (List.length s) <= List.length (utf8 (c :: s)) <= 4 * S (List.length s))%nat.
Proof.
  induction s as [|d s [IHs IHds]].
  - split; [cbn; lia|]. intros c. cbn [utf8].
    pose proof (utf8_codepoint_length 0xFFFD).
    pose proof (utf8_codepoint_length c).
    destruct (isHighSurrogate c); [cbn [List.length]; lia|].
    destruct (isLowSurrogate c); rewrite length_app; cbn [List.length utf8]; lia.
  - split; [apply IHds|]. intros c.
    pose proof (IHds d) as Hds.
    pose proof (utf8_codepoint_length 0xFFFD).
    pose proof (utf8_codepoint_length c).
    cbn [utf8]. cbn [utf8] in Hds.
    destruct (isHighSurrogate c) eqn:Hc.
    + destruct (isLowSurrogate d) eqn:Hd.
      * rewrite length_app, (utf8_pair_length _ _ Hc Hd). cbn [List.length]. lia.
      * rewrite length_app. cbn [List.length] in *. lia.
    + destruct (isLowSurrogate c); rewrite length_app; cbn [List.length] in *; lia.
Qed.

Lemma utf8_length_bounds (s : jsstring) :
  len s <= len (utf8 s) <= 4 * len s.
Proof.
  pose proof (proj1 (utf8_length_step s)). unfold len. lia.
Qed.

(** A string of at most [2^30 - 1] code units, which covers every string
    a JavaScript engine can hold, fits the length prefix. *)
Lemma short_string_fits (s : jsstring) : len s <= 1073741823 -> fits s.
Proof.
  intros Hs. pose proof (utf8_length_bounds s). unfold fits. lia.
Qed.

(** [encodeString] has no failure path on strings a JavaScript engine can
    hold: for at most [2^30 - 1] code units it returns a buffer of four
    bytes more than the UTF-8 text, hence between [4 + n] and [4 + 4n]
    bytes for [n] code units. *)
Theorem encodeString_returns (s : jsstring) :
  len s <= 1073741823 ->
  exists encoded,
    encodeString s = Ok encoded
    /\ len encoded = 4 + len (utf8 s)
    /\ 4 + len s <= len encoded <= 4 + 4 * len s.
Proof.
  intros Hs. pose proof (utf8_length_bounds s) as Hb.
  exists (le32 (len (utf8 s)) ++ utf8 s).
  split; [apply encodeString_ok, short_string_fits, Hs|].
  unfold len in *. rewrite length_app. cbn [List.length le32]. lia.
Qed.

Lemma encodeString_returns_witness :
  exists encoded,
    encodeString [0xD83D; 0xDE00; 0x21] = Ok encoded
    /\ len encoded = 4 + len (utf8 [0xD83D; 0xDE00; 0x21])
    /\ 4 + len [0xD83D; 0xDE00; 0x21] <= len encoded
       <= 4 + 4 * len [0xD83D; 0xDE00; 0x21].
Proof.
  apply (encodeString_returns [0xD83D; 0xDE00; 0x21]).
  vm_compute. discriminate.
Defined.

(** ** The wire format is unambiguous *)

Lemma app_same_length {A : Type} (a b r r' : list A) :
  List.length a = List.length b -> a ++ r = b ++ r' -> a = b /\ r = r'.
Proof.
  revert b. induction a as [|x a IH]; intros [|y b] Hlen Heq;
    try discriminate Hlen.
  - auto.
  - cbn in Heq. injection Heq as -> Heq. injection Hlen as Hlen.
    destruct (IH b Hlen Heq) as [-> ->]. auto.
Qed.

(** A length-prefixed field delimits itself: two fields followed by
    anything agree as byte strings only when the texts and what follows
    agree. *)
Lemma field_delimits (a b r r' : bytes) :
  len a <= 4294967295 -> len b <= 4294967295 ->
  (le32 (len a) ++ a) ++ r = (le32 (len b) ++ b) ++ r' ->
  a = b /\ r = r'.
Proof.
  intros Ha Hb Heq. rewrite <- !app_assoc in Heq.
  apply app_same_length in Heq; [|reflexivity].
  destruct Heq as [Hprefix Heq].
  assert (Hlen : len a = len b).
  { rewrite <- (le_value_le32 (v := len a)), <- (le_value_le32 (v := len b)).
    - now rewrite Hprefix.
    - pose proof (len_nonneg b). lia.
    - pose proof (len_nonneg a). lia. }
  apply app_same_length in Heq; [exact Heq|]. unfold len in Hlen. lia.
Qed.

(** Equal [encodeString] results come from equal UTF-8 texts. *)
Lemma encodeString_delimits (s t : jsstring) (es et r r' : bytes) :
  encodeString s = Ok es -> encodeString t = Ok et ->
  es ++ r = et ++ r' -> utf8 s = utf8 t /\ r = r'.
Proof.
  intros Hs Ht Heq.
  assert (Fs : fits s).
  { destruct (Z.le_gt_cases (len (utf8 s)) 4294967295) as [H|H]; [exact H|].
    rewrite encodeString_throws in Hs; [discriminate|unfold fits; lia]. }
  assert (Ft : fits t).
  { destruct (Z.le_gt_cases (len (utf8 t)) 4294967295) as [H|H]; [exact H|].
    rewrite encodeString_throws in Ht; [discriminate|unfold fits; lia]. }
  rewrite (encodeString_ok Fs) in Hs. rewrite (encodeString_ok Ft) in Ht.
  injection Hs as <-. injection Ht as <-.
  now apply field_delimits.
Qed.

Lemma encodeCreateProduct_inv (productId metadataUri : jsstring) (payload : bytes) :
  encodeCreateProduct productId metadataUri = Ok payload ->
  exists p m, encodeString productId = Ok p /\ encodeString metadataUri = Ok m
              /\ payload = 1 :: p ++ m.
Proof.
  unfold encodeCreateProduct. intros H.
  apply bind_ok in H. destruct H as (p & Hp & H). cbv beta in H.
  apply bind_ok in H. destruct H as (m & Hm & H). cbv beta in H.
  injection H as <-. exists p, m. repeat split; try assumption.
  unfold Buffer_concat. cbn. now rewrite app_nil_r.
Qed.

Lemma encodeUpdateProduct_inv (metadataUri : jsstring) (payload : bytes) :
  encodeUpdateProduct metadataUri = Ok payload ->
  exists m, encodeString metadataUri = Ok m /\ payload = 2 :: m.
Proof.
  unfold encodeUpdateProduct. intros H.
  apply bind_ok in H. destruct H as (m & Hm & H). cbv beta in H.
  injection H as <-. exists m. split; [assumption|].
  unfold Buffer_concat. cbn. now rewrite app_nil_r.
Qed.

Lemma encodeAddReview_inv (productId : jsstring) (score : Z) (comment : jsstring)
      (payload : bytes) :
  encodeAddReview productId score comment = Ok payload ->
  exists p c, encodeString productId = Ok p /\ encodeString comment = Ok c
              /\ payload = 4 :: p ++ (score mod 256 :: c).
Proof.
  unfold encodeAddReview. intros H.
  apply bind_ok in H. destruct H as (p & Hp & H). cbv beta in H.
  apply bind_ok in H. destruct H as (c & Hc & H). cbv beta in H.
  injection H as <-. exists p, c. repeat split; try assumption.
  unfold Buffer_concat. cbn. now rewrite app_nil_r.
Qed.

Lemma encodeUpdateReview_inv (score : Z) (comment : jsstring) (payload : bytes) :
  encodeUpdateReview score comment = Ok payload ->
  exists c, encodeString comment = Ok c /\ payload = 5 :: score mod 256 :: c.
Proof.
  unfold encodeUpdateReview. intros H.
  apply bind_ok in H. destruct H as (c & Hc & H). cbv beta in H.
  injection H as <-. exists c. split; [assumption|].
  unfold Buffer_concat. cbn. now rewrite app_nil_r.
Qed.

(** A payload carries its arguments without ambiguity: two calls of the
    same encoder that return the same bytes had the same UTF-8 text for
    every string argument and the same score byte. *)
Theorem payload_determines_arguments :
  (forall productId metadataUri productId' metadataUri' payload,
      encodeCreateProduct productId metadataUri = Ok payload ->
      encodeCreateProduct productId' metadataUri' = Ok payload ->
      utf8 productId = utf8 productId' /\ utf8 metadataUri = utf8 metadataUri')
  /\ (forall metadataUri metadataUri' payload,
      encodeUpdateProduct metadataUri = Ok payload ->
      encodeUpdateProduct metadataUri' = Ok payload ->
      utf8 metadataUri = utf8 metadataUri')
  /\ (forall productId score comment productId' score' comment' payload,
      encodeAddReview productId score comment = Ok payload ->
      encodeAddReview productId' score' comment' = Ok payload ->
      utf8 productId = utf8 productId' /\ score mod 256 = score' mod 256
      /\ utf8 comment = utf8 comment')
  /\ (forall score comment score' comment' payload,
      encodeUpdateReview score comment = Ok payload ->
      encodeUpdateReview score' comment' = Ok payload ->
      score mod 256 = score' mod 256 /\ utf8 comment = utf8 comment').
Proof.
  split; [|split; [|split]].
  - intros productId metadataUri productId' metadataUri' payload H H'.
    apply encodeCreateProduct_inv in H, H'.
    destruct H as (p & m & Hp & Hm & ->), H' as (p' & m' & Hp' & Hm' & [= Heq]).
    destruct (encodeString_delimits _ _ _ _ Hp Hp' Heq) as [Hpid Hrest].
    split; [exact Hpid|].
    rewrite <- (app_nil_r m), <- (app_nil_r m') in Hrest.
    now destruct (encodeString_delimits _ _ _ _ Hm Hm' Hrest).
  - intros metadataUri metadataUri' payload H H'.
    apply encodeUpdateProduct_inv in H, H'.
    destruct H as (m & Hm & ->), H' as (m' & Hm' & [= Heq]).
    rewrite <- (app_nil_r m), <- (app_nil_r m') in Heq.
    now destruct (encodeString_delimits _ _ _ _ Hm Hm' Heq).
  - intros productId score comment productId' score' comment' payload H H'.
    apply encodeAddReview_inv in H, H'.
    destruct H as (p & c & Hp & Hc & ->), H' as (p' & c' & Hp' & Hc' & [= Heq]).
    destruct (encodeString_delimits _ _ _ _ Hp Hp' Heq) as [Hpid Hrest].
    injection Hrest as Hscore Hrest.
    split; [exact Hpid|]. split; [exact Hscore|].
    rewrite <- (app_nil_r c), <- (app_nil_r c') in Hrest.
    now destruct (encodeString_delimits _ _ _ _ Hc Hc' Hrest).
  - intros score comment score' comment' payload H H'.
    apply encodeUpdateReview_inv in H, H'.
    destruct H as (c & Hc & ->), H' as (c' & Hc' & [= Hscore Heq]).
    split; [exact Hscore|].
    rewrite <- (app_nil_r c), <- (app_nil_r c') in Heq.
    now destruct (encodeString_delimits _ _ _ _ Hc Hc' Heq).
Qed.

(** Two reviews whose scores differ by 256 have the same payload: the
    score is determined only modulo 256. *)
Lemma payload_determines_arguments_witness :
  utf8 (str "p1") = utf8 (str "p1") /\ 261 mod 256 = 5 mod 256
  /\ utf8 (str "great") = utf8 (str "great").
Proof.
  refine (proj1 (proj2 (proj2 payload_determines_arguments))
                (str "p1") 261 (str "great") (str "p1") 5 (str "great")
                [4;  2; 0; 0; 0;  112; 49;  5;  5; 0; 0; 0;  103; 114; 101; 97; 116]
                _ _); vm_compute; reflexivity.
Defined.

(** ** The parsers read the account layouts *)

Lemma le_bytes_length (n : nat) (v : Z) : List.length (le_bytes n v) = n.
Proof. revert v. induction n as [|n IH]; intros v; cbn; [|rewrite IH]; reflexivity. Qed.

Lemma be_bytes_length (n : nat) (v : Z) : List.length (be_bytes n v) = n.
Proof.
  revert v. induction n as [|n IH]; intros v; cbn [be_bytes]; [reflexivity|].
  rewrite length_app, IH. cbn. lia.
Qed.

Lemma le_value_le_bytes (n : nat) (v : Z) :
  0 <= v < 256 ^ Z.of_nat n -> le_value (le_bytes n v) = v.
Proof.
  revert v. induction n as [|n IH]; intros v Hv.
  - cbn in *. lia.
  - cbn [le_bytes le_value]. rewrite IH.
    + pose proof (Z.div_mod v 256). lia.
    + rewrite Nat2Z.inj_succ, Z.pow_succ_r in Hv by lia.
      split; [apply Z.div_pos; lia|].
      apply Z.div_lt_upper_bound; lia.
Qed.

Lemma le32_le_bytes (v : Z) : le32 v = u32 v.
Proof.
  unfold le32, u32, ToUint8. cbn [le_bytes].
  rewrite !Z.shiftr_div_pow2 by lia.
  change (2 ^ 8) with 256. change (2 ^ 16) with (256 * 256).
  change (2 ^ 24) with (256 * 256 * 256).
  rewrite <- !Z.div_div by lia. reflexivity.
Qed.

Lemma be_value_from_app (acc : Z) (a b : bytes) :
  be_value_from acc (a ++ b) = be_value_from (be_value_from acc a) b.
Proof. revert acc. induction a as [|x a IH]; intros acc; cbn; [|rewrite IH]; reflexivity. Qed.

Lemma be_value_be_bytes (n : nat) (v : Z) :
  0 <= v < 256 ^ Z.of_nat n -> be_value (be_bytes n v) = v.
Proof.
  unfold be_value. revert v. induction n as [|n IH]; intros v Hv.
  - cbn in *. lia.
  - cbn [be_bytes]. rewrite be_value_from_app, IH.
    + cbn [be_value_from]. pose proof (Z.div_mod v 256). lia.
    + rewrite Nat2Z.inj_succ, Z.pow_succ_r in Hv by lia.
      split; [apply Z.div_pos; lia|].
      apply Z.div_lt_upper_bound; lia.
Qed.

Lemma new_PublicKey_toBuffer (key : PublicKey) :
  validKey key -> new_PublicKey (toBuffer key) = Ok key.
Proof.
  intros Hkey. unfold validKey in Hkey. unfold new_PublicKey, toBuffer.
  rewrite be_value_be_bytes by (change (256 ^ Z.of_nat 32) with (2 ^ 256); lia).
  destruct (2 ^ 256 <=? bn key) eqn:Hbig; [apply Z.leb_le in Hbig; lia|].
  now destruct key.
Qed.

Lemma window_at (pre w post : bytes) :
  firstn (List.length w) (skipn (List.length pre) (pre ++ w ++ post)) = w.
Proof.
  rewrite skipn_app, skipn_all, Nat.sub_diag. cbn [skipn app].
  rewrite firstn_app, firstn_all, Nat.sub_diag. cbn [firstn]. apply app_nil_r.
Qed.

(** A read of the view that covers exactly one piece of the buffer. *)
Lemma viewBytes_at (b pre w post : bytes) (off n : Z) :
  b = pre ++ w ++ post -> off = len pre -> n = len w ->
  viewBytes b off n = Ok w.
Proof.
  intros -> -> ->. unfold viewBytes.
  pose proof (len_nonneg pre) as Hpre.
  destruct (len pre <? 0) eqn:H1; [apply Z.ltb_lt in H1; lia|].
  destruct (len (pre ++ w ++ post) <? len pre + len w) eqn:H2.
  - apply Z.ltb_lt in H2. unfold len in H2. rewrite !length_app in H2. lia.
  - cbn [orb]. unfold len. rewrite !Nat2Z.id. now rewrite window_at.
Qed.

(** A slice of an owning buffer that covers exactly one piece of it. *)
Lemma contents_slice_at (b pre w post : bytes) (start stop : Z) :
  b = pre ++ w ++ post -> start = len pre -> stop = len pre + len w ->
  contents (slice (Buffer_of b) start stop) = w.
Proof.
  intros -> -> ->. unfold contents, slice, Buffer_of, clampIndex.
  cbn [buffer byteOffset byteLength].
  pose proof (len_nonneg pre) as Hpre. pose proof (len_nonneg w) as Hw.
  assert (Hlen : len (pre ++ w ++ post) = len pre + len w + len post)
    by (unfold len; rewrite !length_app; lia).
  pose proof (len_nonneg post) as Hpost.
  destruct (len pre <? 0) eqn:H1; [apply Z.ltb_lt in H1; lia|].
  destruct (len pre + len w <? 0) eqn:H2; [apply Z.ltb_lt in H2; lia|].
  rewrite Hlen.
  replace (Z.min (len pre) _) with (len pre) by lia.
  replace (Z.min (len pre + len w) _) with (len pre + len w) by lia.
  replace (Z.max _ 0) with (len w) by lia.
  replace (0 + len pre) with (len pre) by lia.
  unfold len. rewrite !Nat2Z.id. apply window_at.
Qed.

Lemma u32_length (v : Z) : List.length (u32 v) = 4%nat.
Proof. apply le_bytes_length. Qed.

Lemma u64_length (v : Z) : List.length (u64 v) = 8%nat.
Proof. apply le_bytes_length. Qed.

Lemma i64_length (v : Z) : List.length (i64 v) = 8%nat.
Proof. apply le_bytes_length. Qed.

Lemma toBuffer_length (key : PublicKey) : List.length (toBuffer key) = 32%nat.
Proof. apply be_bytes_length. Qed.

Lemma le_value_u32 (v : Z) : 0 <= v <= 4294967295 -> le_value (u32 v) = v.
Proof. intros Hv. apply le_value_le_bytes. change (256 ^ Z.of_nat 4) with 4294967296. lia. Qed.

Lemma le_value_u64 (v : Z) : 0 <= v < 2 ^ 64 -> le_value (u64 v) = v.
Proof. intros Hv. apply le_value_le_bytes. change (256 ^ Z.of_nat 8) with (2 ^ 64). lia. Qed.

(** The signed reading of a two's complement field. *)
Lemma signed_i64 (v : Z) :
  - 2 ^ 63 <= v < 2 ^ 63 ->
  (if 2 ^ 63 <=? le_value (i64 v) then le_value (i64 v) - 2 ^ 64 else le_value (i64 v))
  = v.
Proof.
  intros Hv. unfold i64.
  rewrite le_value_le_bytes
    by (change (256 ^ Z.of_nat 8) with (2 ^ 64); apply Z.mod_pos_bound; lia).
  destruct (Z.leb_spec (2 ^ 63) (v mod 2 ^ 64)) as [Hneg|Hpos].
  - assert (v < 0).
    { destruct (Z.lt_ge_cases v 0) as [H|H]; [exact H|].
      rewrite Z.mod_small in Hneg by lia. lia. }
    replace v with (v + 1 * 2 ^ 64 - 2 ^ 64) at 2 by lia.
    f_equal. rewrite <- (Z_mod_plus_full v 1 (2 ^ 64)).
    apply Z.mod_small. lia.
  - destruct (Z.lt_ge_cases v 0) as [H|H].
    + rewrite <- (Z_mod_plus_full v 1 (2 ^ 64)) in Hpos.
      rewrite Z.mod_small in Hpos by lia. lia.
    + apply Z.mod_small. lia.
Qed.

Lemma le_value_byte (x : Z) : le_value [x] = x.
Proof. cbn. lia. Qed.

Ltac len_lia :=
  unfold len;
  rewrite ?length_app, ?u32_length, ?u64_length, ?i64_length, ?toBuffer_length;
  cbn [List.length]; lia.

Ltac layout_side HB :=
  first [ solve [rewrite HB; rewrite <- ?app_assoc; reflexivity]
        | solve [len_lia] ].

(** Find the piece of the layout that the next read or slice covers. *)
Ltac read_piece HB pre l :=
  lazymatch l with
  | ?c ++ ?rest =>
    first [ rewrite (@viewBytes_at _ pre c rest) by layout_side HB
          | rewrite (@contents_slice_at _ pre c rest) by layout_side HB
          | read_piece HB (pre ++ c) rest ]
  end.

Ltac read_next HB :=
  lazymatch type of HB with
  | _ = ?l => read_piece HB (@nil Z) l
  end;
  cbn [bind].

Ltac read_all HB :=
  repeat (read_next HB;
          rewrite ?new_PublicKey_toBuffer, ?le_value_u32, ?le_value_u64,
                  ?le_value_byte, ?signed_i64
            by first [assumption | lia];
          cbn [bind]).

Section LayoutFacts.
Context {platform : Platform}.

(** On a buffer of its own that starts with a user record,
    [parseUserData] returns the record's fields, the 64-bit ones through
    [Number]; what follows the record is ignored and the flag byte is not
    looked at. *)
Theorem parseUserData_reads_record
        (flag : Z) (userAddress : PublicKey)
        (dailyPoints reviewPoints lastClaimTime totalReviews : Z) (rest : bytes) :
  validKey userAddress ->
  0 <= dailyPoints < 2 ^ 64 -> 0 <= reviewPoints < 2 ^ 64 ->
  - 2 ^ 63 <= lastClaimTime < 2 ^ 63 -> 0 <= totalReviews <= 4294967295 ->
  parseUserData
    (Buffer_of (userRecord flag userAddress dailyPoints reviewPoints
                           lastClaimTime totalReviews rest))
  = Ok {| User.userAddress := userAddress;
          User.dailyPoints := Number dailyPoints;
          User.reviewPoints := Number reviewPoints;
          User.lastClaimTime := Number lastClaimTime;
          User.totalReviews := totalReviews |}.
Proof.
  intros Hkey Hdaily Hreview Hclaim Htotal.
  unfold parseUserData, new_DataView, keySlice.
  unfold getUint8, getUint32, getBigUint64, getBigInt64.
  cbn [buffer Buffer_of]. cbv zeta.
  remember (userRecord _ _ _ _ _ _ _) as B eqn:HB.
  unfold userRecord in HB.
  read_all HB.
  reflexivity.
Qed.

(** The same for a config record: the flag is read as [isInitialized],
    true exactly for the byte 1. *)
Theorem parseConfigData_reads_record
        (flag : Z) (authority : PublicKey)
        (totalProducts totalReviews totalUsers totalTransactions version : Z)
        (rest : bytes) :
  validKey authority ->
  0 <= totalProducts < 2 ^ 64 -> 0 <= totalReviews < 2 ^ 64 ->
  0 <= totalUsers < 2 ^ 64 -> 0 <= totalTransactions < 2 ^ 64 ->
  parseConfigData
    (Buffer_of (configRecord flag authority totalProducts totalReviews
                             totalUsers totalTransactions version rest))
  = Ok {| Config.isInitialized := flag =? 1;
          Config.authority := authority;
          Config.totalProducts := Number totalProducts;
          Config.totalReviews := Number totalReviews;
          Config.totalUsers := Number totalUsers;
          Config.totalTransactions := Number totalTransactions;
          Config.version := version |}.
Proof.
  intros Hkey Hp Hr Hu Ht.
  unfold parseConfigData, new_DataView, keySlice.
  unfold getUint8, getUint32, getBigUint64, getBigInt64.
  cbn [buffer Buffer_of].
  remember (configRecord _ _ _ _ _ _ _ _) as B eqn:HB.
  unfold configRecord in HB.
  read_all HB.
  reflexivity.
Qed.

(** On a buffer of its own that starts with a product record,
    [parseProductData] returns the record's fields: the two strings are
    decoded from exactly the bytes their length prefixes announce, the
    status is true exactly for the byte 1, the 64-bit time goes through
    [Number]; what follows the record is ignored and the flag byte is not
    looked at. *)
Theorem parseProductData_reads_record
        (flag : Z) (productId : bytes) (owner : PublicKey)
        (totalScores totalReviews : Z) (metadataUri : bytes)
        (status createdAt : Z) (rest : bytes) :
  len productId <= 4294967295 -> len metadataUri <= 4294967295 ->
  validKey owner ->
  0 <= totalScores <= 4294967295 -> 0 <= totalReviews <= 4294967295 ->
  - 2 ^ 63 <= createdAt < 2 ^ 63 ->
  parseProductData
    (Buffer_of (productRecord flag productId owner totalScores totalReviews
                              metadataUri status createdAt rest))
  = Ok {| Product.productId := TextDecoder_decode productId;
          Product.owner := owner;
          Product.totalScores := totalScores;
          Product.totalReviews := totalReviews;
          Product.metadataUri := TextDecoder_decode metadataUri;
          Product.status := status =? 1;
          Product.createdAt := Number createdAt |}.
Proof.
  intros Hid Huri Hkey Hscores Hreviews Hcreated.
  pose proof (len_nonneg productId) as Hid0.
  pose proof (len_nonneg metadataUri) as Huri0.
  unfold parseProductData, new_DataView, keySlice, decodeSlice.
  unfold getUint8, getUint32, getBigUint64, getBigInt64.
  cbn [buffer Buffer_of]. cbv zeta.
  remember (productRecord _ _ _ _ _ _ _ _ _) as B eqn:HB.
  unfold productRecord, stringField in HB. rewrite <- ?app_assoc in HB.
  read_all HB.
  reflexivity.
Qed.

(** The same for a review record. *)
Theorem parseReviewData_reads_record
        (flag : Z) (productId : bytes) (reviewer : PublicKey)
        (score : Z) (comment : bytes) (createdAt updatedAt : Z) (rest : bytes) :
  len productId <= 4294967295 -> len comment <= 4294967295 ->
  validKey reviewer ->
  - 2 ^ 63 <= createdAt < 2 ^ 63 -> - 2 ^ 63 <= updatedAt < 2 ^ 63 ->
  parseReviewData
    (Buffer_of (reviewRecord flag productId reviewer score comment
                             createdAt updatedAt rest))
  = Ok {| Review.productId := TextDecoder_decode productId;
          Review.reviewer := reviewer;
          Review.score := score;
          Review.comment := TextDecoder_decode comment;
          Review.createdAt := Number createdAt;
          Review.updatedAt := Number updatedAt |}.
Proof.
  intros Hid Hcomment Hkey Hcreated Hupdated.
  pose proof (len_nonneg productId) as Hid0.
  pose proof (len_nonneg comment) as Hcomment0.
  unfold parseReviewData, new_DataView, keySlice, decodeSlice.
  unfold getUint8, getUint32, getBigUint64, getBigInt64.
  cbn [buffer Buffer_of]. cbv zeta.
  remember (reviewRecord _ _ _ _ _ _ _ _) as B eqn:HB.
  unfold reviewRecord, stringField in HB. rewrite <- ?app_assoc in HB.
  read_all HB.
  reflexivity.
Qed.

(** On a buffer of its own that starts with a daily-claims record,
    [parseDailyClaimsData] returns the user, the date decoded from
    exactly the bytes its length prefix announces, and the count byte;
    what follows the record is ignored and the flag byte is not looked
    at. *)
Theorem parseDailyClaimsData_reads_record
        (flag : Z) (user : PublicKey) (date : bytes) (claimsCount : Z)
        (rest : bytes) :
  len date <= 4294967295 -> validKey user ->
  parseDailyClaimsData
    (Buffer_of (dailyClaimsRecord flag user date claimsCount rest))
  = Ok {| DailyClaims.user := user;
          DailyClaims.date := TextDecoder_decode date;
          DailyClaims.claimsCount := claimsCount |}.
Proof.
  intros Hdate Hkey.
  pose proof (len_nonneg date) as Hdate0.
  unfold parseDailyClaimsData, new_DataView, keySlice, decodeSlice.
  unfold getUint8, getUint32, getBigUint64, getBigInt64.
  cbn [buffer Buffer_of]. cbv zeta.
  remember (dailyClaimsRecord _ _ _ _ _) as B eqn:HB.
  unfold dailyClaimsRecord, stringField in HB. rewrite <- ?app_assoc in HB.
  read_all HB.
  reflexivity.
Qed.

Lemma encodeString_stringField (s : jsstring) (encoded : bytes) :
  encodeString s = Ok encoded ->
  encoded = stringField (utf8 s) /\ len (utf8 s) <= 4294967295.
Proof.
  intros Hencoded.
  destruct (Z.le_gt_cases (len (utf8 s)) 4294967295) as [Hfits|Hlong].
  - rewrite (encodeString_ok (s := s)) in Hencoded by exact Hfits.
    assert (Heq : encoded = le32 (len (utf8 s)) ++ utf8 s) by congruence.
    rewrite Heq, le32_le_bytes. unfold stringField. auto.
  - rewrite encodeString_throws in Hencoded; [discriminate|unfold fits; lia].
Qed.

(** The parsers read a string the way [encodeString] writes it: with the
    productId and the metadataUri of a product record, or the date of a
    daily-claims record, laid down by [encodeString], the parser decodes
    exactly the UTF-8 bytes of that string into the field. *)
Theorem parsers_read_encoded_strings
        (flag : Z) (key : PublicKey) (first second : jsstring)
        (firstField secondField : bytes)
        (totalScores totalReviews status createdAt claimsCount : Z)
        (rest : bytes) :
  encodeString first = Ok firstField ->
  encodeString second = Ok secondField ->
  validKey key ->
  0 <= totalScores <= 4294967295 -> 0 <= totalReviews <= 4294967295 ->
  - 2 ^ 63 <= createdAt < 2 ^ 63 ->
  parseProductData
    (Buffer_of ([flag] ++ firstField ++ toBuffer key ++ u32 totalScores
                ++ u32 totalReviews ++ secondField ++ [status] ++ i64 createdAt
                ++ rest))
  = Ok {| Product.productId := TextDecoder_decode (utf8 first);
          Product.owner := key;
          Product.totalScores := totalScores;
          Product.totalReviews := totalReviews;
          Product.metadataUri := TextDecoder_decode (utf8 second);
          Product.status := status =? 1;
          Product.createdAt := Number createdAt |}
  /\ parseDailyClaimsData
       (Buffer_of ([flag] ++ toBuffer key ++ firstField ++ [claimsCount] ++ rest))
     = Ok {| DailyClaims.user := key;
             DailyClaims.date := TextDecoder_decode (utf8 first);
             DailyClaims.claimsCount := claimsCount |}.
Proof.
  intros Hfirst Hsecond Hkey Hscores Hreviews Hcreated.
  apply encodeString_stringField in Hfirst, Hsecond.
  destruct Hfirst as [-> Hfirst], Hsecond as [-> Hsecond].
  pose proof (len_nonneg (utf8 first)) as Hfirst0.
  pose proof (len_nonneg (utf8 second)) as Hsecond0.
  unfold parseProductData, parseDailyClaimsData, new_DataView, keySlice,
    decodeSlice.
  unfold getUint8, getUint32, getBigUint64, getBigInt64.
  cbn [buffer Buffer_of]. cbv zeta.
  split.
  - remember ([flag] ++ stringField (utf8 first) ++ _) as B eqn:HB.
    unfold stringField in HB. rewrite <- ?app_assoc in HB.
    read_all HB.
    reflexivity.
  - remember ([flag] ++ toBuffer key ++ _) as B eqn:HB.
    unfold stringField in HB. rewrite <- ?app_assoc in HB.
    read_all HB.
    reflexivity.
Qed.
End LayoutFacts.

(** ** The program interactions *)

Section InteractionFacts.
Context {platform : Platform} {sender : Sender}.

Lemma getConfig_requests (this : KalloViewClient) (address : PublicKey) (bump : Z) :
  getConfigPDA (programId this) = Ok (address, bump) ->
  requests (getConfig this) = [address].
Proof.
  intros Hpda. unfold getConfig. rewrite Hpda.
  destruct (getAccountInfo (connection this) address) as [[info|]|error];
    [|reflexivity|reflexivity].
  destruct (parseConfigData (AccountInfo.data info)); reflexivity.
Qed.

Lemma getProduct_requests (this : KalloViewClient) (productId : jsstring)
      (address : PublicKey) (bump : Z) :
  getProductPDA (programId this) productId = Ok (address, bump) ->
  requests (getProduct this productId) = [address].
Proof.
  intros Hpda. unfold getProduct. rewrite Hpda.
  destruct (getAccountInfo (connection this) address) as [[info|]|error];
    [|reflexivity|reflexivity].
  destruct (parseProductData (AccountInfo.data info)); reflexivity.
Qed.

Lemma getReview_requests (this : KalloViewClient) (productId : jsstring)
      (reviewer address : PublicKey) (bump : Z) :
  getReviewPDA (programId this) productId reviewer = Ok (address, bump) ->
  requests (getReview this productId reviewer) = [address].
Proof.
  intros Hpda. unfold getReview. rewrite Hpda.
  destruct (getAccountInfo (connection this) address) as [[info|]|error];
    [|reflexivity|reflexivity].
  destruct (parseReviewData (AccountInfo.data info)); reflexivity.
Qed.

Lemma getUser_requests (this : KalloViewClient) (user address : PublicKey) (bump : Z) :
  getUserPDA (programId this) user = Ok (address, bump) ->
  requests (getUser this user) = [address].
Proof.
  intros Hpda. unfold getUser. rewrite Hpda.
  destruct (getAccountInfo (connection this) address) as [[info|]|error];
    [|reflexivity|reflexivity].
  destruct (parseUserData (AccountInfo.data info)); reflexivity.
Qed.

Lemma sendsOnly_thrown {A : Type} (error : JsError) (program : PublicKey)
      (payer : Keypair) (accounts : list PublicKey) :
  sendsOnly (thrown (A := A) error) program payer accounts.
Proof. intros transaction signers options []. Qed.

Lemma sendsOnly_sendConfirmed (conn : Connection) (ix : TransactionInstruction.t)
      (program : PublicKey) (payer : Keypair) (accounts : list PublicKey) :
  TransactionInstruction.programId ix = program ->
  accountsOf ix = publicKey payer :: accounts ->
  sendsOnly (sendConfirmed conn (Transaction_add new_Transaction ix) [payer])
            program payer accounts.
Proof.
  intros Hprogram Haccounts transaction signers options [[= <- <- <-]|[]].
  split; [reflexivity|]. exists ix. auto.
Qed.

Ltac built H :=
  apply bind_ok in H; destruct H as (data & _ & H); cbv beta in H;
  injection H as <-.

(** The write path addresses the records the read path looks up: what
    each program interaction hands to the sender is one transaction of
    one instruction for the client's program, signed by the given keypair
    alone, whose accounts are the keypair's public key followed by the
    addresses that the lookups of the records it touches request, and
    then the system program and the clock where the builder lists them. *)
Theorem interactions_address_the_looked_up_records
        (this : KalloViewClient) (payer : Keypair)
        (productId metadataUri : jsstring) (score : Z) (comment : jsstring) :
  sendsOnly (createProduct this payer productId metadataUri) (programId this) payer
            (requests (getProduct this productId) ++ requests (getConfig this)
             ++ [SystemProgram_programId; SYSVAR_CLOCK_PUBKEY])
  /\ sendsOnly (updateProduct this payer productId metadataUri) (programId this)
               payer (requests (getProduct this productId))
  /\ sendsOnly (deleteProduct this payer productId) (programId this) payer
               (requests (getProduct this productId))
  /\ sendsOnly (addReview this payer productId score comment) (programId this)
               payer
               (requests (getProduct this productId)
                ++ requests (getReview this productId (publicKey payer))
                ++ requests (getUser this (publicKey payer))
                ++ requests (getConfig this)
                ++ [SystemProgram_programId; SYSVAR_CLOCK_PUBKEY])
  /\ sendsOnly (updateReview this payer productId score comment) (programId this)
               payer
               (requests (getReview this productId (publicKey payer))
                ++ [SYSVAR_CLOCK_PUBKEY]).
Proof.
  split; [|split; [|split; [|split]]].
  - unfold createProduct.
    destruct (getProductPDA _ _) as [[productPDA ?]|] eqn:Hproduct;
      [|apply sendsOnly_thrown].
    destruct (getConfigPDA _) as [[configPDA ?]|] eqn:Hconfig;
      [|apply sendsOnly_thrown].
    destruct (createCreateProductInstruction _ _ _ _ _ _) as [ix|] eqn:Hix;
      [|apply sendsOnly_thrown].
    unfold createCreateProductInstruction in Hix. built Hix.
    rewrite (getProduct_requests _ _ Hproduct), (getConfig_requests _ Hconfig).
    now apply sendsOnly_sendConfirmed.
  - unfold updateProduct.
    destruct (getProductPDA _ _) as [[productPDA ?]|] eqn:Hproduct;
      [|apply sendsOnly_thrown].
    destruct (createUpdateProductInstruction _ _ _ _) as [ix|] eqn:Hix;
      [|apply sendsOnly_thrown].
    unfold createUpdateProductInstruction in Hix. built Hix.
    rewrite (getProduct_requests _ _ Hproduct).
    now apply sendsOnly_sendConfirmed.
  - unfold deleteProduct.
    destruct (getProductPDA _ _) as [[productPDA ?]|] eqn:Hproduct;
      [|apply sendsOnly_thrown].
    rewrite (getProduct_requests _ _ Hproduct).
    now apply sendsOnly_sendConfirmed.
  - unfold addReview.
    destruct (getProductPDA _ _) as [[productPDA ?]|] eqn:Hproduct;
      [|apply sendsOnly_thrown].
    destruct (getReviewPDA _ _ _) as [[reviewPDA ?]|] eqn:Hreview;
      [|apply sendsOnly_thrown].
    destruct (getUserPDA _ _) as [[userPDA ?]|] eqn:Huser;
      [|apply sendsOnly_thrown].
    destruct (getConfigPDA _) as [[configPDA ?]|] eqn:Hconfig;
      [|apply sendsOnly_thrown].
    destruct (createAddReviewInstruction _ _ _ _ _ _ _ _ _) as [ix|] eqn:Hix;
      [|apply sendsOnly_thrown].
    unfold createAddReviewInstruction in Hix. built Hix.
    rewrite (getProduct_requests _ _ Hproduct), (getReview_requests _ _ _ Hreview),
      (getUser_requests _ _ Huser), (getConfig_requests _ Hconfig).
    now apply sendsOnly_sendConfirmed.
  - unfold updateReview.
    destruct (getReviewPDA _ _ _) as [[reviewPDA ?]|] eqn:Hreview;
      [|apply sendsOnly_thrown].
    destruct (createUpdateReviewInstruction _ _ _ _ _) as [ix|] eqn:Hix;
      [|apply sendsOnly_thrown].
    unfold createUpdateReviewInstruction in Hix. built Hix.
    rewrite (getReview_requests _ _ _ Hreview).
    now apply sendsOnly_sendConfirmed.
Qed.

(** The date string is a function of the UTC day alone. *)
Lemma getCurrentDateString_same_day (now now' : Z) :
  now / msPerDay = now' / msPerDay ->
  getCurrentDateString now = getCurrentDateString now'.
Proof.
  intros Hday. rewrite !getCurrentDateString_date. unfold utcYear.
  now rewrite Hday.
Qed.

(** [dailyClaim] claims on the record that [getDailyClaims] shows by
    default: for two clock readings on the same UTC day, what [dailyClaim]
    hands to the sender names the keypair's public key, then the addresses
    requested by [getUser], by [getDailyClaims] without a date and by
    [getConfig], then the system program and the clock. *)
Theorem dailyClaim_addresses_todays_record
        (this : KalloViewClient) (user : Keypair) (now now' : Z) :
  now / msPerDay = now' / msPerDay ->
  sendsOnly (dailyClaim this user now) (programId this) user
            (requests (getUser this (publicKey user))
             ++ requests (getDailyClaims this (publicKey user) None now')
             ++ requests (getConfig this)
             ++ [SystemProgram_programId; SYSVAR_CLOCK_PUBKEY]).
Proof.
  intros Hday. unfold dailyClaim.
  destruct (getUserPDA _ _) as [[userPDA ?]|] eqn:Huser;
    [|apply sendsOnly_thrown].
  cbv zeta.
  destruct (getDailyClaimsPDA _ _ _) as [[dailyClaimsPDA ?]|] eqn:Hclaims;
    [|apply sendsOnly_thrown].
  destruct (getConfigPDA _) as [[configPDA ?]|] eqn:Hconfig;
    [|apply sendsOnly_thrown].
  rewrite (getCurrentDateString_same_day _ _ Hday) in Hclaims.
  rewrite (getUser_requests _ _ Huser), (getConfig_requests _ Hconfig).
  rewrite (getDailyClaims_requests this (publicKey user) None now' Hclaims).
  now apply sendsOnly_sendConfirmed.
Qed.




Ltac delivered := do 2 eexists; split; reflexivity.

(** Every program interaction whose addresses derive reaches the sender
    with the encoded operation: one transaction of one instruction whose
    data is the operation's tag followed by its arguments, signed by the
    given keypair alone. *)
Theorem interactions_deliver_the_payload
        (this : KalloViewClient) (payer : Keypair)
        (productId metadataUri : jsstring) (score : Z) (comment : jsstring)
        (now : Z) :
  isOk (getProductPDA (programId this) productId) = true ->
  isOk (getReviewPDA (programId this) productId (publicKey payer)) = true ->
  isOk (getUserPDA (programId this) (publicKey payer)) = true ->
  isOk (getDailyClaimsPDA (programId this) (publicKey payer)
                          (getCurrentDateString now)) = true ->
  isOk (getConfigPDA (programId this)) = true ->
  fits productId -> fits metadataUri -> fits comment ->
  let field (s : jsstring) := le32 (len (utf8 s)) ++ utf8 s in
  delivers (createProduct this payer productId metadataUri) payer
           (1 :: field productId ++ field metadataUri)
  /\ delivers (updateProduct this payer productId metadataUri) payer
              (2 :: field metadataUri)
  /\ delivers (deleteProduct this payer productId) payer [3]
  /\ delivers (addReview this payer productId score comment) payer
              (4 :: field productId ++ [score mod 256] ++ field comment)
  /\ delivers (updateReview this payer productId score comment) payer
              (5 :: [score mod 256] ++ field comment)
  /\ delivers (dailyClaim this payer now) payer [6].
Proof.
  intros Hproduct Hreview Huser Hclaims Hconfig Fid Furi Fcomment field.
  unfold createProduct, updateProduct, deleteProduct, addReview, updateReview,
    dailyClaim. cbv zeta.
  destruct (getProductPDA _ _) as [[productPDA ?]|]; [|discriminate Hproduct].
  destruct (getReviewPDA _ _ _) as [[reviewPDA ?]|]; [|discriminate Hreview].
  destruct (getUserPDA _ _) as [[userPDA ?]|]; [|discriminate Huser].
  destruct (getDailyClaimsPDA _ _ _) as [[dailyClaimsPDA ?]|];
    [|discriminate Hclaims].
  destruct (getConfigPDA _) as [[configPDA ?]|]; [|discriminate Hconfig].
  unfold createCreateProductInstruction, createUpdateProductInstruction,
    createAddReviewInstruction, createUpdateReviewInstruction.
  rewrite (encodeCreateProduct_ok Fid Furi), (encodeUpdateProduct_ok Furi),
    (encodeAddReview_ok score Fid Fcomment), (encodeUpdateReview_ok score Fcomment).
  cbn [bind].
  repeat split; delivered.
Qed.
End InteractionFacts.

(** ** The date helper names the day *)

Lemma digits_length (width : nat) (n : Z) : List.length (digits width n) = width.
Proof.
  revert n. induction width as [|w IH]; intros n; cbn [digits].
  - reflexivity.
  - rewrite length_app, IH. cbn. lia.
Qed.

(** Within its width, a number is read back from its digits. *)
Lemma digits_inj (width : nat) (a b : Z) :
  0 <= a < 10 ^ Z.of_nat width -> 0 <= b < 10 ^ Z.of_nat width ->
  digits width a = digits width b -> a = b.
Proof.
  revert a b. induction width as [|w IH]; intros a b Ha Hb Heq.
  - change (10 ^ Z.of_nat 0) with 1 in Ha, Hb. lia.
  - rewrite Nat2Z.inj_succ, Z.pow_succ_r in Ha, Hb by lia.
    cbn [digits] in Heq. apply app_inj_tail in Heq. destruct Heq as [Hhigh Hlow].
    assert (Hdiv : a / 10 = b / 10).
    { apply IH; [| |exact Hhigh].
      - split; [apply Z.div_pos; lia|apply Z.div_lt_upper_bound; lia].
      - split; [apply Z.div_pos; lia|apply Z.div_lt_upper_bound; lia]. }
    assert (Hmod : a mod 10 = b mod 10) by lia.
    rewrite (Z.div_mod a 10), (Z.div_mod b 10) by lia. congruence.
Qed.

(** The parts of a civil date: the era of 400 years, the year of the
    era, the day of the year counted from the first of March and the
    month counted from March, all in range, give the date and give back
    the day number. *)
Lemma civilFromDays_parts (day : Z) :
  exists era yoe doy mp,
    0 <= yoe <= 399 /\ 0 <= doy <= 365 /\ 0 <= mp <= 11
    /\ 1 <= doy - (153 * mp + 2) / 5 + 1 <= 31
    /\ civilFromDays day
       = (yoe + era * 400 + (if (if mp <? 10 then mp + 3 else mp - 9) <=? 2
                             then 1 else 0),
          if mp <? 10 then mp + 3 else mp - 9,
          doy - (153 * mp + 2) / 5 + 1)
    /\ day = era * 146097 + doy + 365 * yoe + yoe / 4 - yoe / 100 - 719468.
Proof.
  unfold civilFromDays. cbv zeta.
  set (z := day + 719468).
  set (era := z / 146097).
  set (doe := z - era * 146097).
  assert (Hdoe : 0 <= doe < 146097).
  { subst doe era. pose proof (Z.div_mod z 146097).
    pose proof (Z.mod_pos_bound z 146097). lia. }
  assert (Hz : day = era * 146097 + doe - 719468) by (subst doe z; lia).
  clearbody doe era. clear z.
  set (yoe := (doe - doe / 1460 + doe / 36524 - doe / 146096) / 365).
  assert (Hyoe : 0 <= yoe <= 399).
  { subst yoe. clear - Hdoe. Z.div_mod_to_equations. lia. }
  set (doy := doe - (365 * yoe + yoe / 4 - yoe / 100)).
  assert (Hdoy : 0 <= doy <= 365).
  { subst doy yoe. clear - Hdoe. Z.div_mod_to_equations. lia. }
  assert (Hday : day = era * 146097 + doy + 365 * yoe + yoe / 4 - yoe / 100 - 719468).
  { subst doy. lia. }
  clearbody doy.
  set (mp := (5 * doy + 2) / 153).
  assert (Hmp : 0 <= mp <= 11).
  { subst mp. clear - Hdoy. Z.div_mod_to_equations. lia. }
  assert (Hd : 1 <= doy - (153 * mp + 2) / 5 + 1 <= 31).
  { subst mp. clear - Hdoy. Z.div_mod_to_equations. lia. }
  exists era, yoe, doy, mp. repeat split; try lia; assumption.
Qed.

(** Two day numbers with the same civil date are the same day. *)
Lemma civilFromDays_inj (day day' : Z) :
  civilFromDays day = civilFromDays day' -> day = day'.
Proof.
  destruct (civilFromDays_parts day)
    as (era & yoe & doy & mp & Hyoe & Hdoy & Hmp & _ & -> & ->).
  destruct (civilFromDays_parts day')
    as (era' & yoe' & doy' & mp' & Hyoe' & Hdoy' & Hmp' & _ & -> & ->).
  intros Heq. injection Heq as Hy Hm Hd.
  assert (mp = mp') as <-.
  { destruct (mp <? 10) eqn:E, (mp' <? 10) eqn:E';
      rewrite ?Z.ltb_lt, ?Z.ltb_ge in E, E'; lia. }
  assert (doy = doy') as <- by lia.
  assert (yoe = yoe' /\ era = era') as [<- <-] by lia.
  reflexivity.
Qed.

(** Month and day of a civil date have two digits; the year of a time
    value a [Date] can hold has at most six. *)
Lemma civilFromDays_range (day : Z) :
  - 100000000 <= day <= 100000000 ->
  let '(y, m, d) := civilFromDays day in
  - 999999 <= y <= 999999 /\ 1 <= m <= 12 /\ 1 <= d <= 31.
Proof.
  intros Hday.
  destruct (civilFromDays_parts day)
    as (era & yoe & doy & mp & Hyoe & Hdoy & Hmp & Hd & -> & Heq).
  split; [|split; [|exact Hd]].
  - assert (- 700 <= era <= 700).
    { clear - Hday Heq Hyoe Hdoy. Z.div_mod_to_equations. lia. }
    destruct (_ <=? 2); lia.
  - destruct (mp <? 10) eqn:E; rewrite ?Z.ltb_lt, ?Z.ltb_ge in E; lia.
Qed.

Lemma isoYear_length (y : Z) :
  List.length (isoYear y) = if (0 <=? y) && (y <=? 9999) then 4%nat else 7%nat.
Proof.
  unfold isoYear. change (str "-") with [45]. change (str "+") with [43].
  destruct ((0 <=? y) && (y <=? 9999)); [apply digits_length|].
  destruct (y <? 0); rewrite length_app, digits_length; reflexivity.
Qed.

(** A year of at most six digits is read back from its ISO form. *)
Lemma isoYear_inj (y y' : Z) :
  - 999999 <= y <= 999999 -> - 999999 <= y' <= 999999 ->
  isoYear y = isoYear y' -> y = y'.
Proof.
  intros Hy Hy' Heq.
  pose proof (f_equal (@List.length Z) Heq) as Hlen.
  rewrite !isoYear_length in Hlen.
  unfold isoYear in Heq. change (str "-") with [45] in Heq.
  change (str "+") with [43] in Heq.
  destruct ((0 <=? y) && (y <=? 9999)) eqn:E,
           ((0 <=? y') && (y' <=? 9999)) eqn:E'; try discriminate Hlen.
  - apply andb_true_iff in E, E'. rewrite !Z.leb_le in E, E'.
    apply (digits_inj 4); [change (10 ^ Z.of_nat 4) with 10000; lia..|exact Heq].
  - assert (Habs : Z.abs y = Z.abs y').
    { apply (digits_inj 6); [change (10 ^ Z.of_nat 6) with 1000000; lia..|].
      destruct (y <? 0), (y' <? 0); cbn [app] in Heq; congruence. }
    destruct (y <? 0) eqn:S, (y' <? 0) eqn:S'; cbn [app] in Heq;
      try discriminate Heq; rewrite ?Z.ltb_lt, ?Z.ltb_ge in S, S'; lia.
Qed.

(** The date string names the UTC day: for time values a [Date] can hold
    (at most 8.64e15 milliseconds from the epoch), two readings of the
    clock give the same string exactly when they fall on the same UTC
    day. The key of a daily-claims record changes at midnight UTC and
    never repeats. *)
Theorem date_string_names_the_utc_day (now now' : Z) :
  - 8640000000000000 <= now <= 8640000000000000 ->
  - 8640000000000000 <= now' <= 8640000000000000 ->
  getCurrentDateString now = getCurrentDateString now'
  <-> now / msPerDay = now' / msPerDay.
Proof.
  intros Hnow Hnow'. split; [|apply getCurrentDateString_same_day].
  rewrite !getCurrentDateString_date. unfold utcYear.
  assert (Hday : - 100000000 <= now / msPerDay <= 100000000).
  { unfold msPerDay. clear - Hnow. Z.div_mod_to_equations. lia. }
  assert (Hday' : - 100000000 <= now' / msPerDay <= 100000000).
  { unfold msPerDay. clear - Hnow'. Z.div_mod_to_equations. lia. }
  pose proof (civilFromDays_range Hday) as Hrange.
  pose proof (civilFromDays_range Hday') as Hrange'.
  intros Heq. apply civilFromDays_inj.
  destruct (civilFromDays (now / msPerDay)) as [[y m] d].
  destruct (civilFromDays (now' / msPerDay)) as [[y' m'] d'].
  cbn [fst snd] in Heq.
  destruct Hrange as (Hy & Hm & Hd), Hrange' as (Hy' & Hm' & Hd').
  change (str "-") with [45] in Heq.
  assert (Hlen : List.length (isoYear y) = List.length (isoYear y')).
  { apply (f_equal (@List.length Z)) in Heq.
    rewrite !length_app, !digits_length in Heq. cbn [List.length] in Heq. lia. }
  apply app_same_length in Heq; [|exact Hlen]. destruct Heq as [Hyear Heq].
  apply isoYear_inj in Hyear; [|assumption..].
  apply app_same_length in Heq; [|reflexivity]. destruct Heq as [_ Heq].
  apply app_same_length in Heq; [|now rewrite !digits_length].
  destruct Heq as [Hmonth Heq].
  apply app_same_length in Heq; [|reflexivity]. destruct Heq as [_ Hdate].
  apply (digits_inj 2) in Hmonth; [|change (10 ^ Z.of_nat 2) with 100; lia..].
  apply (digits_inj 2) in Hdate; [|change (10 ^ Z.of_nat 2) with 100; lia..].
  congruence.
Qed.

Lemma date_string_names_the_utc_day_witness :
  getCurrentDateString 1762128000000 = getCurrentDateString 1762214399999
  /\ 1762128000000 / msPerDay = 1762214399999 / msPerDay.
Proof.
  assert (Hsame : getCurrentDateString 1762128000000
                  = getCurrentDateString 1762214399999)
    by (vm_compute; reflexivity).
  split; [exact Hsame|].
  apply (@date_string_names_the_utc_day 1762128000000 1762214399999); [lia..|].
  exact Hsame.
Defined.

(** ** The initialization script *)

Module InitScriptFacts.
Import InitScript InitScriptSpec.

(** Run the script symbolically: one case for each answer of each call
    and for each test the script makes on an answer. *)
Ltac answer_of request :=
  let E := fresh "Ecall" in
  destruct request as [[?|?] ?] eqn:E.

Ltac step_script :=
  match goal with
  | |- context [getBalance ?k ?c] => answer_of (getBalance k c)
  | |- context [requestAirdrop ?k ?n ?c] => answer_of (requestAirdrop k n c)
  | |- context [confirmTransaction ?s ?c] => answer_of (confirmTransaction s c)
  | |- context [fetchAccountInfo ?k ?c] => answer_of (fetchAccountInfo k c)
  | |- context [simulateTransaction ?t ?s ?c] => answer_of (simulateTransaction t s c)
  | |- context [submitAndConfirm ?t ?s ?o ?c] => answer_of (submitAndConfirm t s o c)
  | |- context [if ?b <? ?c then _ else _] =>
    let E := fresh "Ecmp" in destruct (b <? c) eqn:E
  | |- context [if errTruthy ?e then _ else _] =>
    let E := fresh "Eerr" in destruct (errTruthy e) eqn:E
  | |- context [match ?o with Some _ => _ | None => _ end] =>
    is_var o; destruct o
  end;
  cbv beta iota zeta.

Ltac run_script_raw :=
  unfold run, initializeProgram, debugAccountInfo, tryCatch, andThen, call,
    ret, throw, consoleError;
  cbv beta iota zeta;
  repeat step_script.

Ltac run_script := run_script_raw; cbn [fst snd app].

Section ScriptFacts.
Context {platform : Platform} {environment : Environment}.



(** What the script submits is the Initialize transaction, signed by the
    loaded keypair alone, whose payer is that keypair's public key and
    whose config account is the derived config address. *)
Theorem submits_the_initialize_transaction
        (cluster : Cluster) (transaction : Transaction.t)
        (signers : list Keypair) (options : ConfirmOptions) (answer : Result string) :
  In (Submitted transaction signers options answer) (snd (run cluster)) ->
  exists configPDA bump,
    getConfigPDA PROGRAM_ID = Ok (configPDA, bump)
    /\ transaction = initializeTransaction (publicKey loadKeypair) configPDA
    /\ signers = [loadKeypair]
    /\ options = confirmedOptions.
Proof.
  unfold run, initializeProgram.
  destruct (getConfigPDA PROGRAM_ID) as [[configPDA bump]|error] eqn:Hpda.
  - run_script; cbn [In]; intros Hin;
      repeat match goal with
             | H : _ \/ _ |- _ => destruct H as [H|H]
             | H : False |- _ => destruct H
             | H : _ = Submitted _ _ _ _ |- _ =>
               first [discriminate H | injection H as <- <- <- <-]
             end;
      exists configPDA, bump; repeat split; reflexivity.
  - run_script; cbn [In]; intros Hin;
      repeat match goal with
             | H : _ \/ _ |- _ => destruct H as [H|H]
             | H : False |- _ => destruct H
             | H : _ = Submitted _ _ _ _ |- _ => discriminate H
             end.
Qed.

Ltac in_events :=
  cbn [In] in *;
  repeat match goal with
         | H : _ \/ _ |- _ => destruct H as [H|H]
         | H : False |- _ => destruct H
         | H : @eq Event _ _ |- _ => first [discriminate H | injection H as ? ? ? ?
                                           | injection H as ? ? ? | injection H as ? ?]
         end; subst.


(** The simulation gates the submission only when it reports an error.
    After a simulation that reported an error nothing is submitted and
    the promise resolves to [undefined]; after a simulation that threw,
    the same transaction is submitted all the same; and the promise
    resolves to [undefined] in no other way. *)
Theorem simulation_gates_submission (cluster : Cluster) :
  (forall transaction signers value,
      In (Simulated transaction signers (Ok value)) (snd (run cluster)) ->
      errTruthy (err value) = true ->
      fst (run cluster) = Resolved None
      /\ existsb isSubmitted (snd (run cluster)) = false)
  /\ (forall transaction signers error,
       In (Simulated transaction signers (Throw error)) (snd (run cluster)) ->
       exists answer,
         In (Submitted transaction signers confirmedOptions answer)
            (snd (run cluster)))
  /\ (fst (run cluster) = Resolved None ->
      exists transaction signers value,
        In (Simulated transaction signers (Ok value)) (snd (run cluster))
        /\ errTruthy (err value) = true).
Proof.
  split; [|split].
  - intros transaction signers value. unfold run, initializeProgram.
    destruct (getConfigPDA PROGRAM_ID) as [[configPDA bump]|error0];
      run_script; intros Hin Herr; in_events;
      try congruence; split; reflexivity.
  - intros transaction signers error. unfold run, initializeProgram.
    destruct (getConfigPDA PROGRAM_ID) as [[configPDA bump]|error0];
      run_script; intros Hin; in_events;
      eexists; cbn [In]; eauto 20.
  - unfold run, initializeProgram.
    destruct (getConfigPDA PROGRAM_ID) as [[configPDA bump]|error0];
      run_script; intros Hnone; try discriminate Hnone;
      do 3 eexists; (split; [cbn [In]; eauto 20|assumption]).
Qed.

(** The script rejects only with an error it could not handle: the
    promise rejects with [error] exactly after [console.error] of it as
    last event, and [error] is what the derivation of the config address
    threw, or what the call just before threw, that call being the first
    reading of the balance, a fetch of an account or the submission. A
    failed airdrop, confirmation, second reading of the balance or
    simulation never rejects it. *)
Theorem rejects_with_the_error_it_met (cluster : Cluster) (error : JsError) :
  fst (run cluster) = Rejected error ->
  exists before,
    snd (run cluster) = before ++ [ConsoleError error]
    /\ (getConfigPDA PROGRAM_ID = Throw error
        \/ exists earlier event,
            before = earlier ++ [event]
            /\ threw event = Some error
            /\ mayReject earlier event).
Proof.
  unfold run, initializeProgram.
  destruct (getConfigPDA PROGRAM_ID) as [[configPDA bump]|error0] eqn:Hpda;
    run_script_raw; cbn [fst snd]; intros Hrejected;
    first [discriminate Hrejected | injection Hrejected as <-];
    eexists; (split; [reflexivity|]);
    first [ left; reflexivity
          | right; do 2 eexists; split; [reflexivity|];
            split; [reflexivity|]; cbn [mayReject]; auto ].
Qed.

(** A run that resolves to an address has seen the program initialized:
    the address is the derived config address, and either the check found
    an account with data there and nothing was submitted, or the
    submission was confirmed with a signature. *)
Theorem resolves_with_the_initialized_address
        (cluster : Cluster) (address : PublicKey) :
  fst (run cluster) = Resolved (Some address) ->
  exists bump,
    getConfigPDA PROGRAM_ID = Ok (address, bump)
    /\ ((existsb isSubmitted (snd (run cluster)) = false
         /\ exists before info,
             snd (run cluster) = before ++ [FetchedAccount address (Ok (Some info))]
             /\ 0 < byteLength (AccountInfo.data info))
        \/ exists transaction signers options signature,
            In (Submitted transaction signers options (Ok signature))
               (snd (run cluster))).
Proof.
  unfold run, initializeProgram.
  destruct (getConfigPDA PROGRAM_ID) as [[configPDA bump]|error0] eqn:Hpda;
    run_script_raw; cbn [fst snd]; intros Hresolved;
    first [discriminate Hresolved | injection Hresolved as <-];
    exists bump; (split; [reflexivity|]);
    first [ left; split; [reflexivity|];
            do 2 eexists; split; [reflexivity|]; now apply Z.ltb_lt
          | right; do 4 eexists; rewrite !in_app_iff; cbn [In]; eauto 20 ].
Qed.
End ScriptFacts.

(** *** Runs on concrete clusters *)

Import InitScriptExamples.

Ltac among :=
  vm_compute; repeat first [left; reflexivity | right].


Lemma submits_the_initialize_transaction_witness :
  exists configPDA bump,
    getConfigPDA (platform := examplePlatform) PROGRAM_ID = Ok (configPDA, bump)
    /\ initializeTransaction (exampleKey 1) exampleConfigPDA
       = initializeTransaction
           (publicKey (loadKeypair (environment := fresh))) configPDA
    /\ [exampleKeypair] = [loadKeypair (environment := fresh)]
    /\ confirmedOptions = confirmedOptions.
Proof.
  refine (@submits_the_initialize_transaction examplePlatform fresh
            false (initializeTransaction (exampleKey 1) exampleConfigPDA)
            [exampleKeypair] confirmedOptions (Ok "signature"%string) _).
  among.
Defined.


Lemma simulation_gates_submission_witness :
  fst (run (platform := examplePlatform) (environment := failing) false)
  = Resolved None
  /\ existsb isSubmitted
             (snd (run (platform := examplePlatform) (environment := failing) false))
     = false.
Proof.
  refine (proj1 (@simulation_gates_submission examplePlatform
                   failing false)
                (initializeTransaction (exampleKey 1) exampleConfigPDA)
                [exampleKeypair]
                {| err := Some "AccountNotFound"%string; logs := [] |} _ _).
  - among.
  - reflexivity.
Defined.

Lemma rejects_with_the_error_it_met_witness :
  exists before,
    snd (run (platform := examplePlatform) (environment := unreachable) false)
    = before ++ [ConsoleError TransportError]
    /\ (getConfigPDA (platform := examplePlatform) PROGRAM_ID = Throw TransportError
        \/ exists earlier event,
            before = earlier ++ [event]
            /\ threw event = Some TransportError
            /\ mayReject earlier event).
Proof.
  refine (@rejects_with_the_error_it_met examplePlatform unreachable
            false TransportError _).
  vm_compute. reflexivity.
Defined.

Lemma resolves_with_the_initialized_address_witness :
  exists bump,
    getConfigPDA (platform := examplePlatform) PROGRAM_ID
    = Ok (exampleConfigPDA, bump)
    /\ ((existsb isSubmitted
                 (snd (run (platform := examplePlatform) (environment := fresh) false))
         = false
         /\ exists before info,
             snd (run (platform := examplePlatform) (environment := fresh) false)
             = before ++ [FetchedAccount exampleConfigPDA (Ok (Some info))]
             /\ 0 < byteLength (AccountInfo.data info))
        \/ exists transaction signers options signature,
            In (Submitted transaction signers options (Ok signature))
               (snd (run (platform := examplePlatform) (environment := fresh) false))).
Proof.
  refine (@resolves_with_the_initialized_address examplePlatform
            fresh false exampleConfigPDA _).
  vm_compute. reflexivity.
Defined.

End InitScriptFacts.

(** ** The further properties on concrete inputs *)

Ltac in_range :=
  vm_compute;
  repeat match goal with
         | |- _ /\ _ => split
         | |- _ -> False => let H := fresh in intro H; discriminate H
         | |- _ = _ => reflexivity
         end.

Lemma parseConfigData_reads_record_witness :
  parseConfigData (Buffer_of (configRecord 1 (exampleKey 7) 12 34 5 51 2 [9; 9]))
  = Ok {| Config.isInitialized := true;
          Config.authority := exampleKey 7;
          Config.totalProducts := 12;
          Config.totalReviews := 34;
          Config.totalUsers := 5;
          Config.totalTransactions := 51;
          Config.version := 2 |}.
Proof.
  refine (@parseConfigData_reads_record 1 (exampleKey 7) 12 34 5 51 2 [9; 9]
                                         _ _ _ _ _); in_range.
Defined.

Lemma parseProductData_reads_record_witness :
  parseProductData (platform := examplePlatform)
    (Buffer_of (productRecord 1 [97; 98] (exampleKey 7) 9 2 [99] 1 1700000000 []))
  = Ok {| Product.productId := [97; 98];
          Product.owner := exampleKey 7;
          Product.totalScores := 9;
          Product.totalReviews := 2;
          Product.metadataUri := [99];
          Product.status := true;
          Product.createdAt := 1700000000 |}.
Proof.
  refine (@parseProductData_reads_record examplePlatform 1 [97; 98] (exampleKey 7)
                                          9 2 [99] 1 1700000000 [] _ _ _ _ _ _);
    in_range.
Defined.

Lemma parseReviewData_reads_record_witness :
  parseReviewData (platform := examplePlatform)
    (Buffer_of (reviewRecord 1 [97; 98] (exampleKey 7) 5 [111; 107]
                             1700000000 (-1) []))
  = Ok {| Review.productId := [97; 98];
          Review.reviewer := exampleKey 7;
          Review.score := 5;
          Review.comment := [111; 107];
          Review.createdAt := 1700000000;
          Review.updatedAt := -1 |}.
Proof.
  refine (@parseReviewData_reads_record examplePlatform 1 [97; 98] (exampleKey 7)
                                         5 [111; 107] 1700000000 (-1) [] _ _ _ _ _);
    in_range.
Defined.

Lemma parseUserData_reads_record_witness :
  parseUserData (Buffer_of (userRecord 1 (exampleKey 7) 100 50 1700000000 3 []))
  = Ok {| User.userAddress := exampleKey 7;
          User.dailyPoints := 100;
          User.reviewPoints := 50;
          User.lastClaimTime := 1700000000;
          User.totalReviews := 3 |}.
Proof.
  refine (@parseUserData_reads_record 1 (exampleKey 7) 100 50 1700000000 3 []
                                       _ _ _ _ _); in_range.
Defined.

Lemma parseDailyClaimsData_reads_record_witness :
  parseDailyClaimsData (platform := examplePlatform)
    (Buffer_of (dailyClaimsRecord 1 (exampleKey 7) (utf8 (str "2025-11-03")) 4 []))
  = Ok {| DailyClaims.user := exampleKey 7;
          DailyClaims.date := utf8 (str "2025-11-03");
          DailyClaims.claimsCount := 4 |}.
Proof.
  refine (@parseDailyClaimsData_reads_record examplePlatform 1 (exampleKey 7)
            (utf8 (str "2025-11-03")) 4 [] _ _); in_range.
Defined.

Lemma parsers_read_encoded_strings_witness :
  parseDailyClaimsData (platform := examplePlatform)
    (Buffer_of ([1] ++ toBuffer (exampleKey 7)
                ++ [10; 0; 0; 0; 50; 48; 50; 53; 45; 49; 49; 45; 48; 51] ++ [4] ++ []))
  = Ok {| DailyClaims.user := exampleKey 7;
          DailyClaims.date := utf8 (str "2025-11-03");
          DailyClaims.claimsCount := 4 |}.
Proof.
  refine (proj2 (@parsers_read_encoded_strings examplePlatform 1 (exampleKey 7)
                   (str "2025-11-03") (str "c")
                   [10; 0; 0; 0; 50; 48; 50; 53; 45; 49; 49; 45; 48; 51]
                   [1; 0; 0; 0; 99] 9 2 1 1700000000 4 [] _ _ _ _ _ _));
    in_range.
Defined.

Lemma dailyClaim_addresses_todays_record_witness :
  sendsOnly (dailyClaim (platform := examplePlatform) (sender := exampleSender)
                        exampleClient exampleKeypair 1762128000000)
            PROGRAM_ID exampleKeypair
            (requests (getUser (platform := examplePlatform) exampleClient
                               (publicKey exampleKeypair))
             ++ requests (getDailyClaims (platform := examplePlatform) exampleClient
                                         (publicKey exampleKeypair) None 1762214399999)
             ++ requests (getConfig (platform := examplePlatform) exampleClient)
             ++ [SystemProgram_programId; SYSVAR_CLOCK_PUBKEY]).
Proof.
  refine (@dailyClaim_addresses_todays_record examplePlatform exampleSender
            exampleClient exampleKeypair 1762128000000 1762214399999 _).
  vm_compute. reflexivity.
Defined.

Lemma interactions_deliver_the_payload_witness :
  delivers (addReview (platform := examplePlatform) (sender := exampleSender)
                      exampleClient exampleKeypair (str "p1") 261 (str "great"))
           exampleKeypair
           [4; 2; 0; 0; 0; 112; 49; 5; 5; 0; 0; 0; 103; 114; 101; 97; 116].
Proof.
  refine (proj1 (proj2 (proj2 (proj2
            (@interactions_deliver_the_payload examplePlatform exampleSender
               exampleClient exampleKeypair (str "p1") (str "ipfs://m") 261
               (str "great") 1762128000000 _ _ _ _ _ _ _ _)))));
    in_range.
Defined.
